(** * HaiBlock Python SDK: client facade, transport and model layer

    A shallow embedding of [haiblock/client.py], [haiblock/models.py] and
    [haiblock/exceptions.py].  The three libraries the SDK is glued onto
    ([os], [requests], [pydantic]) are modelled as far as the SDK calls
    them: the process environment, the file system and the remote server
    form an explicit [world] that is threaded through every operation,
    together with the log of the network calls made so far. *)

From Stdlib Require Import ZArith List String Ascii Bool Lia.
From Stdlib Require Import DecimalString.
From Stdlib Require PrimFloat.
From Stdlib Require Floats.SpecFloat Floats.FloatOps.
Import ListNotations.

Open Scope string_scope.
Open Scope Z_scope.

Set Warnings "-register-all,-inexact-float".

(** ** JSON values, as [response.json()] hands them to the SDK *)

Module Json.

(** A Python [float] is an IEEE binary64 number. *)
Definition float := PrimFloat.float.

(** A decoded JSON document.  An object is the Python [dict] it decodes
    to, kept as its items in insertion order. *)
Inductive json : Type :=
| JNull
| JBool (b : bool)
| JInt (n : Z)
| JFloat (f : float)
| JString (s : string)
| JArray (items : list json)
| JObject (members : list (string * json)).

(** [d.get(k)] on an item list. *)
Fixpoint lookup {A : Type} (k : string) (d : list (string * A)) : option A :=
  match d with
  | [] => None
  | (k', v) :: rest => if String.eqb k k' then Some v else lookup k rest
  end.

(** [d.get(k, default)]. *)
Definition get_default {A : Type} (k : string) (default : A)
    (d : list (string * A)) : A :=
  match lookup k d with
  | Some v => v
  | None => default
  end.

End Json.
Import Json.

(** ** Python string helpers used by the client *)

Module Py.

(** [s.lstrip('/')] *)
Fixpoint lstrip_slash (s : string) : string :=
  match s with
  | String c rest => if Ascii.eqb c "/" then lstrip_slash rest else s
  | EmptyString => s
  end.

Fixpoint has_slash (s : string) : bool :=
  match s with
  | EmptyString => false
  | String c rest => Ascii.eqb c "/" || has_slash rest
  end.

(** [os.path.basename(p)]: what follows the last ['/']. *)
Fixpoint basename (p : string) : string :=
  match p with
  | EmptyString => EmptyString
  | String _ rest => if has_slash p then basename rest else p
  end.

(** [needle in hay] *)
Fixpoint includes (needle hay : string) : bool :=
  String.prefix needle hay ||
  match hay with
  | EmptyString => false
  | String _ rest => includes needle rest
  end.

(** [str(n)] for an [int]. *)
Definition str_of_int (n : Z) : string :=
  NilZero.string_of_int (Z.to_int n).

(** Truthiness of an [Optional[str]]: [None] and [''] are falsy. *)
Definition truthy (v : option string) : bool :=
  match v with
  | Some s => negb (String.eqb s EmptyString)
  | None => false
  end.

(** [a or b] on [Optional[str]] operands. *)
Definition or_else (a b : option string) : option string :=
  if truthy a then a else b.

(** [a or b] where [b] is a [str]. *)
Definition or_default (a : option string) (b : string) : string :=
  match a with
  | Some s => if truthy a then s else b
  | None => b
  end.

End Py.

(** ** exceptions.py, and the foreign exceptions that cross the SDK *)

Module Exceptions.

(** A [requests.Response], as far as the SDK reads it.  [json_body] is
    what [response.json()] does: it returns the decoded document, or
    raises a decode error with the given text when the body is not
    JSON. *)
Record response : Type := {
  status_code : Z;
  reason : string;
  url : string;
  text : string;
  json_body : string + json
}.

Inductive exn : Type :=
(* haiblock.exceptions *)
| HaiBlockError (message : string)
| AuthenticationError (message : string)
| APIError (message : string) (status : option Z) (resp : option response)
| ValidationError (message : string)
| ContentNotFoundError (message : string)
| TransformationError (message : string)
(* builtins *)
| FileNotFoundError (message : string)
| IsADirectoryError (message : string)
| PermissionError (message : string)
| TypeError (message : string)
| AttributeError (message : string)
(* requests.exceptions *)
| RequestException (message : string)
| HTTPError (message : string) (resp : response)
| JSONDecodeError (message : string)
(* pydantic *)
| PydanticValidationError (model : string).

(** [isinstance(e, AuthenticationError)] *)
Definition is_AuthenticationError (e : exn) : bool :=
  match e with AuthenticationError _ => true | _ => false end.

(** [isinstance(e, APIError)] *)
Definition is_APIError (e : exn) : bool :=
  match e with APIError _ _ _ => true | _ => false end.

(** A validation fault, whether the SDK's own class or pydantic's. *)
Definition is_validation_fault (e : exn) : bool :=
  match e with
  | ValidationError _ | PydanticValidationError _ => true
  | _ => false
  end.

End Exceptions.
Import Exceptions.

(** ** pydantic field validation, as models.py relies on it *)

Module Pydantic.

(** What pydantic does with a value that is not of the annotated type
    (an [int] for a [str] field, ["12"] for an [int] field, ...) differs
    between its major versions; the SDK pins neither.  The coercions are
    therefore left open: every statement below holds whatever they are.
    They are consulted only for values of a foreign type and never for
    [None], which every non-Optional annotation here rejects. *)
Record coercions : Type := {
  lax_str : json -> option string;
  lax_int : json -> option Z;
  lax_float : json -> option float;
  lax_bool : json -> option bool;
  lax_dict : json -> option (list (string * json));
  lax_list : json -> option (list json)
}.

(** No coercion at all: only values of the annotated type validate. *)
Definition strict : coercions := {|
  lax_str := fun _ => None;
  lax_int := fun _ => None;
  lax_float := fun _ => None;
  lax_bool := fun _ => None;
  lax_dict := fun _ => None;
  lax_list := fun _ => None
|}.

Definition validator (A : Type) : Type := json -> option A.

Notation "x <- a ;; b" :=
  (match a with Some x => b | None => None end)
  (right associativity, at level 60, a at next level).

Fixpoint traverse {A B : Type} (f : A -> option B) (l : list A)
    : option (list B) :=
  match l with
  | [] => Some []
  | a :: rest =>
      b <- f a ;;
      bs <- traverse f rest ;;
      Some (b :: bs)
  end.

Definition traverse_items {A : Type} (v : validator A)
    (d : list (string * json)) : option (list (string * A)) :=
  traverse (fun kv => a <- v (snd kv) ;; Some (fst kv, a)) d.

Section Validators.

Variable P : coercions.

(** [str] *)
Definition str_validator : validator string := fun j =>
  match j with
  | JString s => Some s
  | JNull => None
  | _ => lax_str P j
  end.

(** [int] *)
Definition int_validator : validator Z := fun j =>
  match j with
  | JInt n => Some n
  | JNull => None
  | _ => lax_int P j
  end.

(** [float] *)
Definition float_validator : validator float := fun j =>
  match j with
  | JFloat f => Some f
  | JNull => None
  | _ => lax_float P j
  end.

(** [bool] *)
Definition bool_validator : validator bool := fun j =>
  match j with
  | JBool b => Some b
  | JNull => None
  | _ => lax_bool P j
  end.

(** [Any] *)
Definition any_validator : validator json := fun j => Some j.

(** [Dict[str, T]]: JSON keys are strings already. *)
Definition dict_validator {A : Type} (v : validator A)
    : validator (list (string * A)) := fun j =>
  match j with
  | JObject d => traverse_items v d
  | JNull => None
  | _ => d <- lax_dict P j ;; traverse_items v d
  end.

(** [List[T]] *)
Definition list_validator {A : Type} (v : validator A)
    : validator (list A) := fun j =>
  match j with
  | JArray l => traverse v l
  | JNull => None
  | _ => l <- lax_list P j ;; traverse v l
  end.

(** A field annotated [T] with no default: the key must be there. *)
Definition required {A : Type} (v : validator A) (name : string)
    (kw : list (string * json)) : option A :=
  match lookup name kw with
  | Some j => v j
  | None => None
  end.

(** A field annotated [Optional[T] = None]. *)
Definition optional {A : Type} (v : validator A) (name : string)
    (kw : list (string * json)) : option (option A) :=
  match lookup name kw with
  | None => Some None
  | Some JNull => Some None
  | Some j => a <- v j ;; Some (Some a)
  end.

End Validators.

(** How a validated Python value shows as JSON again ([.dict()]). *)
Definition dump_opt {A : Type} (d : A -> json) (o : option A) : json :=
  match o with
  | Some a => d a
  | None => JNull
  end.

Definition dump_dict {A : Type} (d : A -> json) (m : list (string * A))
    : json :=
  JObject (map (fun kv => (fst kv, d (snd kv))) m).

Definition dump_list {A : Type} (d : A -> json) (l : list A) : json :=
  JArray (map d l).

Definition dump_any (j : json) : json := j.

(** The JSON type an annotation names. *)
Inductive annotation : Type :=
| TStr | TInt | TFloat | TBool | TAny
| TDict (value : annotation)
| TList (item : annotation)
| TOptional (inner : annotation).

Fixpoint has_type (t : annotation) (j : json) {struct t} : bool :=
  match t, j with
  | TStr, JString _ => true
  | TInt, JInt _ => true
  | TFloat, JFloat _ => true
  | TBool, JBool _ => true
  | TAny, _ => true
  | TDict t', JObject d => forallb (fun kv => has_type t' (snd kv)) d
  | TList t', JArray l => forallb (has_type t') l
  | TOptional _, JNull => true
  | TOptional t', _ => has_type t' j
  | _, _ => false
  end.

Definition is_optional (t : annotation) : bool :=
  match t with TOptional _ => true | _ => false end.

(** A payload matches a model's schema when every field is there with
    a value of its annotated type; an [Optional] field may also be
    absent or [null].  Keys that are not fields are ignored, as pydantic
    ignores them. *)
Definition field_matches (kw : list (string * json))
    (field : string * annotation) : bool :=
  match lookup (fst field) kw with
  | Some j => has_type (snd field) j
  | None => is_optional (snd field)
  end.

Definition matches_schema (schema : list (string * annotation))
    (kw : list (string * json)) : bool :=
  forallb (field_matches kw) schema.

(** A validator and a dump that fit an annotation: what is dumped
    validates back to itself, and every value of the annotated type is a
    dump. *)
Definition faithful {A : Type} (T : annotation) (v : validator A)
    (d : A -> json) : Prop :=
  (forall a, v (d a) = Some a)
  /\ (forall j, has_type T j = true -> exists a, j = d a).

Definition never_null {A : Type} (d : A -> json) : Prop :=
  forall a, d a <> JNull.

End Pydantic.
Import Pydantic.

(** ** models.py *)

(** Calling a model class on unpacked keyword arguments: the fields are
    validated one by one; any failure raises pydantic's ValidationError
    for the model. *)
Definition construct {A : Type} (model : string) (validated : option A)
    : exn + A :=
  match validated with
  | Some a => inr a
  | None => inl (PydanticValidationError model)
  end.

Module Content.

Record t : Type := {
  id : string;
  user_id : string;
  filename : string;
  original_text : string;
  transformed_text : option string;
  upload_date : string;
  last_updated : string;
  status : string;
  file_size : Z;
  file_type : string;
  s3_key : string;
  upload_metadata : option (list (string * json));
  validation_checks : option (list (string * bool));
  upload_completed : option string;
  actual_file_size : option Z
}.

(** The values the comment on [status] lists. *)
Definition statuses : list string :=
  ["uploaded"; "processing"; "transformed"; "submitted"; "error"].

Definition schema : list (string * annotation) :=
  [ ("id", TStr); ("user_id", TStr); ("filename", TStr);
    ("original_text", TStr); ("transformed_text", TOptional TStr);
    ("upload_date", TStr); ("last_updated", TStr); ("status", TStr);
    ("file_size", TInt); ("file_type", TStr); ("s3_key", TStr);
    ("upload_metadata", TOptional (TDict TAny));
    ("validation_checks", TOptional (TDict TBool));
    ("upload_completed", TOptional TStr);
    ("actual_file_size", TOptional TInt) ].

Definition validate (P : coercions) (kw : list (string * json))
    : option t :=
  f1 <- required (str_validator P) "id" kw ;;
  f2 <- required (str_validator P) "user_id" kw ;;
  f3 <- required (str_validator P) "filename" kw ;;
  f4 <- required (str_validator P) "original_text" kw ;;
  f5 <- optional (str_validator P) "transformed_text" kw ;;
  f6 <- required (str_validator P) "upload_date" kw ;;
  f7 <- required (str_validator P) "last_updated" kw ;;
  f8 <- required (str_validator P) "status" kw ;;
  f9 <- required (int_validator P) "file_size" kw ;;
  f10 <- required (str_validator P) "file_type" kw ;;
  f11 <- required (str_validator P) "s3_key" kw ;;
  f12 <- optional (dict_validator P any_validator) "upload_metadata" kw ;;
  f13 <- optional (dict_validator P (bool_validator P))
           "validation_checks" kw ;;
  f14 <- optional (str_validator P) "upload_completed" kw ;;
  f15 <- optional (int_validator P) "actual_file_size" kw ;;
  Some {| id := f1; user_id := f2; filename := f3; original_text := f4;
          transformed_text := f5; upload_date := f6; last_updated := f7;
          status := f8; file_size := f9; file_type := f10; s3_key := f11;
          upload_metadata := f12; validation_checks := f13;
          upload_completed := f14; actual_file_size := f15 |}.

(** The constructor call [Content] on the keyword arguments [kw]. *)
Definition init (P : coercions) (kw : list (string * json)) : exn + t :=
  construct "Content" (validate P kw).

(** [c.dict()] *)
Definition dict (c : t) : list (string * json) :=
  [ ("id", JString (id c)); ("user_id", JString (user_id c));
    ("filename", JString (filename c));
    ("original_text", JString (original_text c));
    ("transformed_text", dump_opt JString (transformed_text c));
    ("upload_date", JString (upload_date c));
    ("last_updated", JString (last_updated c));
    ("status", JString (status c));
    ("file_size", JInt (file_size c));
    ("file_type", JString (file_type c));
    ("s3_key", JString (s3_key c));
    ("upload_metadata", dump_opt (dump_dict dump_any) (upload_metadata c));
    ("validation_checks", dump_opt (dump_dict JBool) (validation_checks c));
    ("upload_completed", dump_opt JString (upload_completed c));
    ("actual_file_size", dump_opt JInt (actual_file_size c)) ].

End Content.

Module Submission.

Record t : Type := {
  id : string;
  content_id : string;
  provider : string;
  status : string;
  submitted_at : string;
  response_data : option (list (string * json));
  cost_estimate : option float;
  error_message : option string
}.

(** The values the comment on [status] lists. *)
Definition statuses : list string :=
  ["pending"; "submitted"; "success"; "error"].

Definition schema : list (string * annotation) :=
  [ ("id", TStr); ("content_id", TStr); ("provider", TStr);
    ("status", TStr); ("submitted_at", TStr);
    ("response_data", TOptional (TDict TAny));
    ("cost_estimate", TOptional TFloat);
    ("error_message", TOptional TStr) ].

Definition validate (P : coercions) (kw : list (string * json))
    : option t :=
  f1 <- required (str_validator P) "id" kw ;;
  f2 <- required (str_validator P) "content_id" kw ;;
  f3 <- required (str_validator P) "provider" kw ;;
  f4 <- required (str_validator P) "status" kw ;;
  f5 <- required (str_validator P) "submitted_at" kw ;;
  f6 <- optional (dict_validator P any_validator) "response_data" kw ;;
  f7 <- optional (float_validator P) "cost_estimate" kw ;;
  f8 <- optional (str_validator P) "error_message" kw ;;
  Some {| id := f1; content_id := f2; provider := f3; status := f4;
          submitted_at := f5; response_data := f6; cost_estimate := f7;
          error_message := f8 |}.

(** The constructor call [Submission] on the keyword arguments [kw]. *)
Definition init (P : coercions) (kw : list (string * json)) : exn + t :=
  construct "Submission" (validate P kw).

(** [s.dict()] *)
Definition dict (s : t) : list (string * json) :=
  [ ("id", JString (id s)); ("content_id", JString (content_id s));
    ("provider", JString (provider s)); ("status", JString (status s));
    ("submitted_at", JString (submitted_at s));
    ("response_data", dump_opt (dump_dict dump_any) (response_data s));
    ("cost_estimate", dump_opt JFloat (cost_estimate s));
    ("error_message", dump_opt JString (error_message s)) ].

End Submission.

Module TransformationResult.

Record t : Type := {
  success : bool;
  transformed_text : option string;
  chunks : option (list string);
  company_info : option (list (string * json));
  faqs : option (list (list (string * json)));
  error : option string
}.

Definition schema : list (string * annotation) :=
  [ ("success", TBool); ("transformed_text", TOptional TStr);
    ("chunks", TOptional (TList TStr));
    ("company_info", TOptional (TDict TAny));
    ("faqs", TOptional (TList (TDict TAny)));
    ("error", TOptional TStr) ].

Definition validate (P : coercions) (kw : list (string * json))
    : option t :=
  f1 <- required (bool_validator P) "success" kw ;;
  f2 <- optional (str_validator P) "transformed_text" kw ;;
  f3 <- optional (list_validator P (str_validator P)) "chunks" kw ;;
  f4 <- optional (dict_validator P any_validator) "company_info" kw ;;
  f5 <- optional (list_validator P (dict_validator P any_validator))
          "faqs" kw ;;
  f6 <- optional (str_validator P) "error" kw ;;
  Some {| success := f1; transformed_text := f2; chunks := f3;
          company_info := f4; faqs := f5; error := f6 |}.

(** The constructor call [TransformationResult] on the keyword arguments [kw]. *)
Definition init (P : coercions) (kw : list (string * json)) : exn + t :=
  construct "TransformationResult" (validate P kw).

(** [r.dict()] *)
Definition dict (r : t) : list (string * json) :=
  [ ("success", JBool (success r));
    ("transformed_text", dump_opt JString (transformed_text r));
    ("chunks", dump_opt (dump_list JString) (chunks r));
    ("company_info", dump_opt (dump_dict dump_any) (company_info r));
    ("faqs", dump_opt (dump_list (dump_dict dump_any)) (faqs r));
    ("error", dump_opt JString (error r)) ].

End TransformationResult.

Module AnalyticsData.

Record t : Type := {
  total_content : Z;
  total_submissions : Z;
  successful_submissions : Z;
  failed_submissions : Z;
  total_costs : float;
  recent_activity : list (list (string * json));
  content_status_breakdown : list (string * Z);
  submission_provider_breakdown : list (string * Z);
  monthly_trends : list (string * json);
  average_cost_per_submission : float;
  success_rate : float
}.

Definition schema : list (string * annotation) :=
  [ ("total_content", TInt); ("total_submissions", TInt);
    ("successful_submissions", TInt); ("failed_submissions", TInt);
    ("total_costs", TFloat); ("recent_activity", TList (TDict TAny));
    ("content_status_breakdown", TDict TInt);
    ("submission_provider_breakdown", TDict TInt);
    ("monthly_trends", TDict TAny);
    ("average_cost_per_submission", TFloat); ("success_rate", TFloat) ].

Definition validate (P : coercions) (kw : list (string * json))
    : option t :=
  f1 <- required (int_validator P) "total_content" kw ;;
  f2 <- required (int_validator P) "total_submissions" kw ;;
  f3 <- required (int_validator P) "successful_submissions" kw ;;
  f4 <- required (int_validator P) "failed_submissions" kw ;;
  f5 <- required (float_validator P) "total_costs" kw ;;
  f6 <- required (list_validator P (dict_validator P any_validator))
          "recent_activity" kw ;;
  f7 <- required (dict_validator P (int_validator P))
          "content_status_breakdown" kw ;;
  f8 <- required (dict_validator P (int_validator P))
          "submission_provider_breakdown" kw ;;
  f9 <- required (dict_validator P any_validator) "monthly_trends" kw ;;
  f10 <- required (float_validator P) "average_cost_per_submission" kw ;;
  f11 <- required (float_validator P) "success_rate" kw ;;
  Some {| total_content := f1; total_submissions := f2;
          successful_submissions := f3; failed_submissions := f4;
          total_costs := f5; recent_activity := f6;
          content_status_breakdown := f7;
          submission_provider_breakdown := f8; monthly_trends := f9;
          average_cost_per_submission := f10; success_rate := f11 |}.

(** The constructor call [AnalyticsData] on the keyword arguments [kw]. *)
Definition init (P : coercions) (kw : list (string * json)) : exn + t :=
  construct "AnalyticsData" (validate P kw).

(** [a.dict()] *)
Definition dict (a : t) : list (string * json) :=
  [ ("total_content", JInt (total_content a));
    ("total_submissions", JInt (total_submissions a));
    ("successful_submissions", JInt (successful_submissions a));
    ("failed_submissions", JInt (failed_submissions a));
    ("total_costs", JFloat (total_costs a));
    ("recent_activity",
       dump_list (dump_dict dump_any) (recent_activity a));
    ("content_status_breakdown",
       dump_dict JInt (content_status_breakdown a));
    ("submission_provider_breakdown",
       dump_dict JInt (submission_provider_breakdown a));
    ("monthly_trends", dump_dict dump_any (monthly_trends a));
    ("average_cost_per_submission",
       JFloat (average_cost_per_submission a));
    ("success_rate", JFloat (success_rate a)) ].

End AnalyticsData.

(** ** The models as one interface *)

(** What the client uses of a [BaseModel] subclass: its fields, its
    constructor and its dump. *)
Record model : Type := {
  entity : Type;
  fields : list (string * annotation);
  decode : coercions -> list (string * json) -> exn + entity;
  encode : entity -> list (string * json)
}.

Definition Content_model : model :=
  {| entity := Content.t; fields := Content.schema;
     decode := Content.init; encode := Content.dict |}.

Definition Submission_model : model :=
  {| entity := Submission.t; fields := Submission.schema;
     decode := Submission.init; encode := Submission.dict |}.

Definition TransformationResult_model : model :=
  {| entity := TransformationResult.t;
     fields := TransformationResult.schema;
     decode := TransformationResult.init;
     encode := TransformationResult.dict |}.

Definition AnalyticsData_model : model :=
  {| entity := AnalyticsData.t; fields := AnalyticsData.schema;
     decode := AnalyticsData.init; encode := AnalyticsData.dict |}.

Definition models : list model :=
  [ Content_model; Submission_model; TransformationResult_model;
    AnalyticsData_model ].

(** Decoding undoes encoding, and a payload that matches the schema
    decodes to an entity whose encoding gives back, field by field, what
    the payload holds. *)
Definition round_trips (P : coercions) (m : model) : Prop :=
  (forall x : entity m, decode m P (encode m x) = inr x)
  /\ (forall kw,
        matches_schema (fields m) kw = true ->
        exists x,
          decode m P kw = inr x
          /\ forall k v,
               In k (map fst (fields m)) ->
               lookup k kw = Some v ->
               lookup k (encode m x) = Some v).

(** ** The world outside the SDK *)

Module World.

(** What lies at a path that exists: something [open(path, 'rb')]
    yields the bytes of, or something it refuses with an error (a
    directory, a file the process may not read). *)
Inductive fs_entry : Type :=
| Readable (content : string)
| Unopenable (err : exn).

(** One outbound HTTP call, with the arguments the SDK passes to
    [requests].  A call with a non-empty [files] is sent as
    multipart/form-data. *)
Record request : Type := {
  method : string;
  target : string;
  params : list (string * json);
  headers : list (string * string);
  files : list (string * (string * string));
  data : list (string * json)
}.

(** The network either fails to produce a response or produces one. *)
Inductive net_result : Type :=
| NetFail (message : string)
| NetResp (r : response).

(** The environment variables, the file system, the remote server (its
    answer may depend on the calls it has already received) and the log
    of the calls made so far, oldest first. *)
Record world : Type := {
  environ : string -> option string;
  fs : string -> option fs_entry;
  server : list request -> request -> net_result;
  sent : list request
}.

(** A computation that reads and extends the world and either raises
    or returns. *)
Definition M (A : Type) : Type := world -> (exn + A) * world.

Definition ret {A : Type} (a : A) : M A := fun w => (inr a, w).

Definition raise {A : Type} (e : exn) : M A := fun w => (inl e, w).

Definition bind {A B : Type} (m : M A) (k : A -> M B) : M B := fun w =>
  match m w with
  | (inr a, w') => k a w'
  | (inl e, w') => (inl e, w')
  end.

Notation "x <~ m ;; k" := (bind m (fun x => k))
  (right associativity, at level 60, m at next level).

(** A pure step that may raise. *)
Definition lift {A : Type} (r : exn + A) : M A :=
  match r with
  | inr a => ret a
  | inl e => raise e
  end.

(** [try: m  except ...: handler].  The handler picks the exceptions it
    catches; the others propagate. *)
Definition try_except {A : Type} (m : M A) (handler : exn -> option (M A))
    : M A := fun w =>
  match m w with
  | (inr a, w') => (inr a, w')
  | (inl e, w') =>
      match handler e with
      | Some h => h w'
      | None => (inl e, w')
      end
  end.

Fixpoint mapM {A B : Type} (f : A -> M B) (l : list A) : M (list B) :=
  match l with
  | [] => ret []
  | a :: rest =>
      b <~ f a ;;
      bs <~ mapM f rest ;;
      ret (b :: bs)
  end.

(** [os.getenv(name)] *)
Definition getenv (name : string) : M (option string) := fun w =>
  (inr (environ w name), w).

(** [os.getenv(name, default)] *)
Definition getenv_default (name default : string) : M string := fun w =>
  (inr (match environ w name with Some v => v | None => default end), w).

(** [os.path.exists(path)] *)
Definition path_exists (path : string) : M bool := fun w =>
  (inr (match fs w path with Some _ => true | None => false end), w).

(** [open(path, 'rb')], read in full. *)
Definition open_rb (path : string) : M string := fun w =>
  match fs w path with
  | Some (Readable content) => (inr content, w)
  | Some (Unopenable e) => (inl e, w)
  | None => (inl (FileNotFoundError path), w)
  end.

(** The answer of the server to [rq] in world [w]. *)
Definition answer (w : world) (rq : request) : net_result :=
  server w (sent w) rq.

(** The world once [rq] has gone out. *)
Definition logged (w : world) (rq : request) : world :=
  {| environ := environ w; fs := fs w; server := server w;
     sent := sent w ++ [rq] |}.

(** One HTTP exchange: the call is logged, and a network-level failure
    raises [requests.exceptions.RequestException]. *)
Definition send (rq : request) : M response := fun w =>
  match answer w rq with
  | NetResp r => (inr r, logged w rq)
  | NetFail m => (inl (RequestException m), logged w rq)
  end.

(** [response.raise_for_status()]: the text of the HTTPError it raises
    for a 4xx or 5xx status, and [None] when it returns. *)
Definition http_error_msg (r : response) : option string :=
  if (400 <=? status_code r) && (status_code r <? 500) then
    Some (Py.str_of_int (status_code r) ++ " Client Error: " ++ reason r
          ++ " for url: " ++ url r)
  else if (500 <=? status_code r) && (status_code r <? 600) then
    Some (Py.str_of_int (status_code r) ++ " Server Error: " ++ reason r
          ++ " for url: " ++ url r)
  else None.

Definition raise_for_status (r : response) : M unit :=
  match http_error_msg r with
  | Some m => raise (HTTPError m r)
  | None => ret tt
  end.

(** [response.json()] *)
Definition response_json (r : response) : M json :=
  match json_body r with
  | inr j => ret j
  | inl m => raise (JSONDecodeError m)
  end.

End World.
Import World.

(** ** client.py *)

(** The SDK pins neither [pydantic] nor [requests] to a major version.
    Besides pydantic's coercions, one behaviour of [requests] that the
    transport meets differs between versions: whether the error of
    [response.json()] on a body that is not JSON is a [RequestException]
    (2.27 and later) or a plain [ValueError]. *)
Record libs : Type := {
  pydantic : coercions;
  json_error_is_request_exception : bool
}.

Module HaiBlockClient.

(** The attributes [__init__] sets.  [session_headers] are the headers
    the constructor puts on the session (the defaults [requests] adds of
    its own are left out). *)
Record t : Type := {
  api_url : string;
  auth_token : string;
  session_headers : list (string * string)
}.

(** [Model] called on the unpacked [data]: unpacking wants a mapping. *)
Definition unpack (j : json) : exn + list (string * json) :=
  match j with
  | JObject kw => inr kw
  | _ => inl (TypeError "argument after ** must be a mapping")
  end.

(** [data.get(key, default)] on a decoded document: only a dict has
    [get]. *)
Definition dict_get (key : string) (default : json) (j : json)
    : exn + json :=
  match j with
  | JObject d => inr (get_default key default d)
  | _ => inl (AttributeError "object has no attribute 'get'")
  end.

(** [for item in v]: a list yields its items, a dict its keys, a string
    its characters; nothing else iterates. *)
Definition iterate (j : json) : exn + list json :=
  match j with
  | JArray l => inr l
  | JObject d => inr (map (fun kv => JString (fst kv)) d)
  | JString s =>
      inr (map (fun c => JString (String c EmptyString))
               (list_ascii_of_string s))
  | _ => inl (TypeError "object is not iterable")
  end.

Definition opt_truthy {A : Type} (o : option (list A)) : bool :=
  match o with
  | Some (_ :: _) => true
  | _ => false
  end.

(** [__init__(self, api_url=None, auth_token=None)] *)
Definition __init__ (api_url auth_token : option string) : M t :=
  env_url <~ getenv_default "HAIBLOCK_API_URL" "https://api.haiblock.com" ;;
  let self_api_url := Py.or_default api_url env_url in
  env_token <~ getenv "HAIBLOCK_AUTH_TOKEN" ;;
  let self_auth_token := Py.or_else auth_token env_token in
  match self_auth_token with
  | Some tok =>
      if negb (Py.truthy self_auth_token) then
        raise (AuthenticationError "Auth token is required. Set HAIBLOCK_AUTH_TOKEN environment variable or pass auth_token parameter.")
      else
        ret {| api_url := self_api_url;
               auth_token := tok;
               session_headers :=
                 [ ("Authorization", "Bearer " ++ tok);
                   ("Content-Type", "application/json");
                   ("User-Agent", "haiblock-python-sdk/0.1.0") ] |}
  | None =>
      raise (AuthenticationError "Auth token is required. Set HAIBLOCK_AUTH_TOKEN environment variable or pass auth_token parameter.")
  end.

Section Methods.

Variable L : libs.

(** The call [_make_request] issues. *)
Definition transport_request (self : t) (method endpoint : string)
    (params : list (string * json)) : request :=
  {| method := method;
     target := api_url self ++ "/" ++ Py.lstrip_slash endpoint;
     params := params;
     headers := session_headers self;
     files := [];
     data := [] |}.

(** [_make_request(self, method, endpoint, params=...)] *)
Definition _make_request (self : t) (method endpoint : string)
    (params : list (string * json)) : M json :=
  try_except
    (response <~ send (transport_request self method endpoint params) ;;
     _ <~ raise_for_status response ;;
     response_json response)
    (fun e =>
       match e with
       | HTTPError msg resp =>
           Some (if status_code resp =? 401 then
                   raise (AuthenticationError
                            "Invalid or expired authentication token")
                 else if status_code resp =? 404 then
                   raise (ContentNotFoundError "Requested resource not found")
                 else
                   raise (APIError ("API request failed: " ++ msg)
                                   (Some (status_code resp)) (Some resp)))
       | RequestException msg =>
           Some (raise (APIError ("Request failed: " ++ msg) None None))
       | JSONDecodeError msg =>
           if json_error_is_request_exception L then
             Some (raise (APIError ("Request failed: " ++ msg) None None))
           else None
       | _ => None
       end).

(** The call [upload_file] issues. *)
Definition upload_request (self : t) (file_path content : string)
    (metadata : option (list (string * json))) : request :=
  {| method := "POST";
     target := api_url self ++ "/upload";
     params := [];
     headers :=
       filter (fun kv => negb (String.eqb (fst kv) "Content-Type"))
              (session_headers self);
     files := [("file", (Py.basename file_path, content))];
     data :=
       match metadata with
       | Some m => if opt_truthy metadata then [("metadata", JObject m)]
                   else []
       | None => []
       end |}.

(** [upload_file(self, file_path, metadata=None)] *)
Definition upload_file (self : t) (file_path : string)
    (metadata : option (list (string * json))) : M Content.t :=
  found <~ path_exists file_path ;;
  if negb found then
    raise (FileNotFoundError ("File not found: " ++ file_path))
  else
    f <~ open_rb file_path ;;
    response <~ send (upload_request self file_path f metadata) ;;
    if negb (status_code response =? 200) then
      raise (APIError ("Upload failed: " ++ text response)
                      (Some (status_code response)) (Some response))
    else
      body <~ response_json response ;;
      kw <~ lift (unpack body) ;;
      lift (Content.init (pydantic L) kw).

(** [get_content(self, content_id)] *)
Definition get_content (self : t) (content_id : string) : M Content.t :=
  data <~ _make_request self "GET" ("/content/" ++ content_id) [] ;;
  kw <~ lift (unpack data) ;;
  lift (Content.init (pydantic L) kw).

(** [list_content(self, limit=50, offset=0)] *)
Definition list_content (self : t) (limit offset : Z)
    : M (list Content.t) :=
  let params := [("limit", JInt limit); ("offset", JInt offset)] in
  data <~ _make_request self "GET" "/content" params ;;
  items <~ lift (dict_get "items" (JArray []) data) ;;
  items <~ lift (iterate items) ;;
  mapM (fun item =>
          kw <~ lift (unpack item) ;;
          lift (Content.init (pydantic L) kw)) items.

(** [transform_content(self, content_id)] *)
Definition transform_content (self : t) (content_id : string)
    : M TransformationResult.t :=
  data <~ _make_request self "POST"
            ("/content/" ++ content_id ++ "/transform") [] ;;
  kw <~ lift (unpack data) ;;
  lift (TransformationResult.init (pydantic L) kw).

(** [submit_to_model(self, content_id, provider="bedrock")] *)
Definition submit_to_model (self : t) (content_id provider : string)
    : M Submission.t :=
  data <~ _make_request self "POST"
            ("/content/" ++ content_id ++ "/submit/" ++ provider) [] ;;
  kw <~ lift (unpack data) ;;
  lift (Submission.init (pydantic L) kw).

(** [get_submission(self, submission_id)] *)
Definition get_submission (self : t) (submission_id : string)
    : M Submission.t :=
  data <~ _make_request self "GET" ("/submissions/" ++ submission_id) [] ;;
  kw <~ lift (unpack data) ;;
  lift (Submission.init (pydantic L) kw).

(** The [params] of [list_submissions]: [content_id] is added when it
    is truthy. *)
Definition list_submissions_params (content_id : option string)
    (limit offset : Z) : list (string * json) :=
  let params := [("limit", JInt limit); ("offset", JInt offset)] in
  match content_id with
  | Some cid => if Py.truthy content_id
                then (params ++ [("content_id", JString cid)])%list
                else params
  | None => params
  end.

(** [list_submissions(self, content_id=None, limit=50, offset=0)] *)
Definition list_submissions (self : t) (content_id : option string)
    (limit offset : Z) : M (list Submission.t) :=
  let params := list_submissions_params content_id limit offset in
  data <~ _make_request self "GET" "/submissions" params ;;
  items <~ lift (dict_get "items" (JArray []) data) ;;
  items <~ lift (iterate items) ;;
  mapM (fun item =>
          kw <~ lift (unpack item) ;;
          lift (Submission.init (pydantic L) kw)) items.

(** [get_analytics(self)] *)
Definition get_analytics (self : t) : M AnalyticsData.t :=
  data <~ _make_request self "GET" "/analytics" [] ;;
  kw <~ lift (unpack data) ;;
  lift (AnalyticsData.init (pydantic L) kw).

(** [delete_content(self, content_id)] *)
Definition delete_content (self : t) (content_id : string) : M bool :=
  _ <~ _make_request self "DELETE" ("/content/" ++ content_id) [] ;;
  ret true.

End Methods.

End HaiBlockClient.

(** ** The facade as a whole *)

Module Facade.

Import HaiBlockClient.

(** One call of a facade method, with its arguments. *)
Inductive call : Type :=
| UploadFile (file_path : string) (metadata : option (list (string * json)))
| GetContent (content_id : string)
| ListContent (limit offset : Z)
| TransformContent (content_id : string)
| SubmitToModel (content_id provider : string)
| GetSubmission (submission_id : string)
| ListSubmissions (content_id : option string) (limit offset : Z)
| GetAnalytics
| DeleteContent (content_id : string).

(** The exception a run ends with, if any, and the world it leaves. *)
Definition outcome {A : Type} (r : (exn + A) * world)
    : option exn * world :=
  match r with
  | (inl e, w) => (Some e, w)
  | (inr _, w) => (None, w)
  end.

Definition perform (L : libs) (self : t) (c : call) (w : world)
    : option exn * world :=
  match c with
  | UploadFile p md => outcome (upload_file L self p md w)
  | GetContent cid => outcome (get_content L self cid w)
  | ListContent limit offset => outcome (list_content L self limit offset w)
  | TransformContent cid => outcome (transform_content L self cid w)
  | SubmitToModel cid prov => outcome (submit_to_model L self cid prov w)
  | GetSubmission sid => outcome (get_submission L self sid w)
  | ListSubmissions cid limit offset =>
      outcome (list_submissions L self cid limit offset w)
  | GetAnalytics => outcome (get_analytics L self w)
  | DeleteContent cid => outcome (delete_content L self cid w)
  end.

(** The method, endpoint and query parameters a call hands to
    [_make_request]; [upload_file] does not go through it. *)
Definition route (c : call)
    : option (string * string * list (string * json)) :=
  match c with
  | UploadFile _ _ => None
  | GetContent cid => Some ("GET", "/content/" ++ cid, [])
  | ListContent limit offset =>
      Some ("GET", "/content",
            [("limit", JInt limit); ("offset", JInt offset)])
  | TransformContent cid =>
      Some ("POST", "/content/" ++ cid ++ "/transform", [])
  | SubmitToModel cid prov =>
      Some ("POST", "/content/" ++ cid ++ "/submit/" ++ prov, [])
  | GetSubmission sid => Some ("GET", "/submissions/" ++ sid, [])
  | ListSubmissions cid limit offset =>
      Some ("GET", "/submissions",
            list_submissions_params cid limit offset)
  | GetAnalytics => Some ("GET", "/analytics", [])
  | DeleteContent cid => Some ("DELETE", "/content/" ++ cid, [])
  end.

(** The HTTP call a routed facade call issues. *)
Definition routed (self : t) (c : call) : option request :=
  match route c with
  | Some (m, ep, ps) => Some (transport_request self m ep ps)
  | None => None
  end.

End Facade.

(** ** Concrete libraries, worlds and payloads *)

Module Fixtures.

(** Current libraries with no coercion configured. *)
Definition current : libs :=
  {| pydantic := strict; json_error_is_request_exception := true |}.

(** An older [requests], whose JSON error is a plain [ValueError]. *)
Definition legacy : libs :=
  {| pydantic := strict; json_error_is_request_exception := false |}.

Definition no_env : string -> option string := fun _ => None.

Definition no_files : string -> option fs_entry := fun _ => None.

(** A file system holding [/tmp/notes.txt] and the directory [/tmp]. *)
Definition some_files : string -> option fs_entry := fun p =>
  if String.eqb p "/tmp/notes.txt" then Some (Readable "hello")
  else if String.eqb p "/tmp" then
    Some (Unopenable (IsADirectoryError "[Errno 21] Is a directory: '/tmp'"))
  else None.

(** A server that gives every call the same answer. *)
Definition always (a : net_result) : list request -> request -> net_result :=
  fun _ _ => a.

Definition fresh (env : string -> option string)
    (files : string -> option fs_entry)
    (srv : list request -> request -> net_result) : world :=
  {| environ := env; fs := files; server := srv; sent := [] |}.

Definition reply (code : Z) (why body : string) (doc : string + json)
    : response :=
  {| status_code := code; reason := why;
     url := "https://api.test.haiblock.com/"; text := body;
     json_body := doc |}.

Definition at_url (u : string) (r : response) : response :=
  {| status_code := status_code r; reason := reason r; url := u;
     text := text r; json_body := json_body r |}.

Definition not_json : string + json :=
  inl "Expecting value: line 1 column 1 (char 0)".

(** The client of [setup_method] in tests/test_client.py. *)
Definition test_client : HaiBlockClient.t :=
  {| HaiBlockClient.api_url := "https://api.test.haiblock.com";
     HaiBlockClient.auth_token := "test-token";
     HaiBlockClient.session_headers :=
       [ ("Authorization", "Bearer test-token");
         ("Content-Type", "application/json");
         ("User-Agent", "haiblock-python-sdk/0.1.0") ] |}.

(** The payload of [test_get_content_success]. *)
Definition content_test : list (string * json) :=
  [ ("id", JString "test-content-id"); ("user_id", JString "user-123");
    ("filename", JString "test.txt");
    ("original_text", JString "test content");
    ("upload_date", JString "2025-01-01T00:00:00Z");
    ("last_updated", JString "2025-01-01T00:00:00Z");
    ("status", JString "uploaded");
    ("file_size", JInt 1000); ("file_type", JString "text/plain");
    ("s3_key", JString "uploads/test.txt") ].

(** The second item of [test_list_content_success]. *)
Definition content_2 : list (string * json) :=
  [ ("id", JString "content-2"); ("user_id", JString "user-123");
    ("filename", JString "test2.txt");
    ("original_text", JString "content 2");
    ("upload_date", JString "2025-01-01T00:00:00Z");
    ("last_updated", JString "2025-01-01T00:00:00Z");
    ("status", JString "processed");
    ("file_size", JInt 2000); ("file_type", JString "text/plain");
    ("s3_key", JString "uploads/test2.txt") ].

(** The payload of [test_submit_to_bedrock_success], with a status the
    comment on [Submission.status] does not list. *)
Definition submission_queued : list (string * json) :=
  [ ("id", JString "submission-123");
    ("content_id", JString "test-content-id");
    ("provider", JString "bedrock"); ("status", JString "queued");
    ("submitted_at", JString "2025-01-01T00:00:00Z") ].

(** The payload of [test_get_analytics_success]. *)
Import PrimFloat.

Definition zero_point_eight : float := 0.8%float.

Definition analytics_payload : list (string * json) :=
  [ ("total_content", JInt 5); ("total_submissions", JInt 10);
    ("successful_submissions", JInt 8); ("failed_submissions", JInt 2);
    ("total_costs", JFloat 1.25%float); ("recent_activity", JArray []);
    ("content_status_breakdown",
       JObject [("uploaded", JInt 3); ("processed", JInt 2)]);
    ("submission_provider_breakdown", JObject [("bedrock", JInt 10)]);
    ("monthly_trends", JObject []);
    ("average_cost_per_submission", JFloat 0.125%float);
    ("success_rate", JFloat zero_point_eight) ].

End Fixtures.

(** ** models.py: the User model *)

Module User.

Record t : Type := {
  id : string;
  email : string;
  api_keys : option (list (string * string));
  created_at : string;
  last_login : string
}.

Definition schema : list (string * annotation) :=
  [ ("id", TStr); ("email", TStr); ("api_keys", TOptional (TDict TStr));
    ("created_at", TStr); ("last_login", TStr) ].

Definition validate (P : coercions) (kw : list (string * json))
    : option t :=
  f1 <- required (str_validator P) "id" kw ;;
  f2 <- required (str_validator P) "email" kw ;;
  f3 <- optional (dict_validator P (str_validator P)) "api_keys" kw ;;
  f4 <- required (str_validator P) "created_at" kw ;;
  f5 <- required (str_validator P) "last_login" kw ;;
  Some {| id := f1; email := f2; api_keys := f3; created_at := f4;
          last_login := f5 |}.

(** The constructor call [User] on the keyword arguments [kw]. *)
Definition init (P : coercions) (kw : list (string * json)) : exn + t :=
  construct "User" (validate P kw).

(** [u.dict()] *)
Definition dict (u : t) : list (string * json) :=
  [ ("id", JString (id u)); ("email", JString (email u));
    ("api_keys", dump_opt (dump_dict JString) (api_keys u));
    ("created_at", JString (created_at u));
    ("last_login", JString (last_login u)) ].

End User.

Definition User_model : model :=
  {| entity := User.t; fields := User.schema;
     decode := User.init; encode := User.dict |}.

(** Every model of models.py. *)
Definition all_models : list model := models ++ [User_model].

(** ** exceptions.py: the class hierarchy *)

(** [isinstance(e, HaiBlockError)]: the six classes of exceptions.py. *)
Definition is_HaiBlockError (e : exn) : bool :=
  match e with
  | HaiBlockError _ | AuthenticationError _ | APIError _ _ _
  | ValidationError _ | ContentNotFoundError _ | TransformationError _ =>
      true
  | _ => false
  end.

(** ** examples/auth_example.py: the Cognito helper *)

Module HaiBlockAuth.

(** The three operations of the [cognito-idp] client the helper calls,
    with the keyword arguments it passes. *)
Inductive cognito_call : Type :=
| initiate_auth (ClientId AuthFlow : string)
    (AuthParameters : list (string * string))
| sign_up (ClientId Username Password : string)
    (UserAttributes : list (string * string))
| confirm_sign_up (ClientId Username ConfirmationCode : string).

(** What a call on the boto3 client does: it returns the response dict,
    raises [botocore.exceptions.ClientError] (of which the helper reads
    the error code, and [text] is its [str]), or raises something else. *)
Inductive boto_result : Type :=
| Returned (response : list (string * json))
| ClientError (code text : string)
| OtherError (text : string).

(** What escapes a method of the helper. *)
Inductive failure : Type :=
| Sdk (e : exn)
| ValueError (message : string)
| KeyError (key : string)
| Uncaught (text : string).

Record t : Type := {
  user_pool_id : string;
  client_id : string;
  region : string;
  cognito_client : cognito_call -> boto_result
}.

(** [__init__(self, user_pool_id=None, client_id=None,
    region='us-east-1')], in the environment [environ] and with
    [boto3_client service region] for [boto3.client], which returns a
    client or raises (a malformed region, a missing profile). *)
Definition __init__ (environ : string -> option string)
    (boto3_client : string -> string
                    -> failure + (cognito_call -> boto_result))
    (user_pool_id client_id : option string) (region : string)
    : failure + t :=
  let self_user_pool_id :=
    Py.or_else user_pool_id (environ "HAIBLOCK_USER_POOL_ID") in
  let self_client_id :=
    Py.or_else client_id (environ "HAIBLOCK_CLIENT_ID") in
  if negb (Py.truthy self_user_pool_id) || negb (Py.truthy self_client_id)
  then inl (ValueError "User Pool ID and Client ID are required")
  else
    match self_user_pool_id, self_client_id with
    | Some pool, Some cid =>
        match boto3_client "cognito-idp" region with
        | inr client =>
            inr {| user_pool_id := pool; client_id := cid;
                   region := region; cognito_client := client |}
        | inl e => inl e
        end
    | _, _ => inl (ValueError "User Pool ID and Client ID are required")
    end.

(** [d[key]] on a dict. *)
Definition getitem (key : string) (d : list (string * json))
    : failure + json :=
  match lookup key d with
  | Some v => inr v
  | None => inl (KeyError key)
  end.

(** [v[key]] on a decoded value with a string key. *)
Definition subscript (key : string) (v : json) : failure + json :=
  match v with
  | JObject d => getitem key d
  | _ => inl (Sdk (TypeError "object is not subscriptable with a str"))
  end.

(** [authenticate(self, email, password)] *)
Definition authenticate (self : t) (email password : string)
    : failure + json :=
  match cognito_client self
          (initiate_auth (client_id self) "USER_PASSWORD_AUTH"
             [("USERNAME", email); ("PASSWORD", password)]) with
  | Returned response =>
      match getitem "AuthenticationResult" response with
      | inr result => subscript "AccessToken" result
      | inl e => inl e
      end
  | ClientError error_code text =>
      if String.eqb error_code "NotAuthorizedException" then
        inl (Sdk (AuthenticationError "Invalid email or password"))
      else if String.eqb error_code "UserNotConfirmedException" then
        inl (Sdk (AuthenticationError "Email not verified. Please check your email and confirm your account."))
      else
        inl (Sdk (AuthenticationError ("Authentication failed: " ++ text)))
  | OtherError text => inl (Uncaught text)
  end.

(** [signup(self, email, password, name)] *)
Definition signup (self : t) (email password name : string)
    : failure + bool :=
  match cognito_client self
          (sign_up (client_id self) email password
             [("email", email); ("name", name)]) with
  | Returned _ => inr true
  | ClientError error_code text =>
      if String.eqb error_code "UsernameExistsException" then
        inl (Sdk (AuthenticationError "User already exists"))
      else if String.eqb error_code "InvalidPasswordException" then
        inl (Sdk (AuthenticationError "Password does not meet requirements"))
      else inl (Sdk (AuthenticationError ("Signup failed: " ++ text)))
  | OtherError text => inl (Uncaught text)
  end.

(** [confirm_signup(self, email, confirmation_code)] *)
Definition confirm_signup (self : t) (email confirmation_code : string)
    : failure + bool :=
  match cognito_client self
          (confirm_sign_up (client_id self) email confirmation_code) with
  | Returned _ => inr true
  | ClientError error_code text =>
      if String.eqb error_code "CodeMismatchException" then
        inl (Sdk (AuthenticationError "Invalid verification code"))
      else if String.eqb error_code "ExpiredCodeException" then
        inl (Sdk (AuthenticationError "Verification code expired"))
      else inl (Sdk (AuthenticationError ("Confirmation failed: " ++ text)))
  | OtherError text => inl (Uncaught text)
  end.

End HaiBlockAuth.

(** ** client.py: the body of the two list comprehensions *)

(** [Model] called on the unpacked item, as [list_content] and
    [list_submissions] do for each item of the answer. *)
Definition decode_item {A : Type} (init : list (string * json) -> exn + A)
    (j : json) : M A :=
  kw <~ lift (HaiBlockClient.unpack j) ;; lift (init kw).

(** ** Integers in float fields *)

Module PyNumber.




(** The analytics payload of the tests with the JSON integer
    9007199254740993 (2^53 + 1) for [total_costs]. *)
Import PrimFloat.


End PyNumber.

(** ** More worlds and answers *)

Module Scenarios.

Import Fixtures.

(** A world with no environment and no files whose server gives [r] to
    every call. *)
Definition served (r : response) : world :=
  fresh no_env no_files (always (NetResp r)).

(** A 200 answer holding the JSON document [doc]. *)
Definition ok (doc : json) : response := reply 200 "OK" "{}" (inr doc).

(** A 200 answer to a listing, holding [items]. *)
Definition listing (items : json) : response :=
  ok (JObject [("items", items)]).

(** An environment holding the single variable [name]. *)
Definition env_with (name value : string) : string -> option string :=
  fun n => if String.eqb n name then Some value else None.

(** A world with the environment [env], no files and no network. *)
Definition offline (env : string -> option string) : world :=
  fresh env no_files (always (NetFail "down")).

(** A payload for the User model. *)
Definition user_payload : list (string * json) :=
  [ ("id", JString "user-123"); ("email", JString "demo@example.com");
    ("api_keys", JObject [("bedrock", JString "key-1")]);
    ("created_at", JString "2025-01-01T00:00:00Z");
    ("last_login", JString "2025-01-02T00:00:00Z") ].

(** A Cognito client that gives every call the same result. *)
Definition cognito (result : HaiBlockAuth.boto_result)
    : HaiBlockAuth.cognito_call -> HaiBlockAuth.boto_result :=
  fun _ => result.

(** The helper of the demo, on the Cognito client [client]. *)
Definition auth_helper
    (client : HaiBlockAuth.cognito_call -> HaiBlockAuth.boto_result)
    : HaiBlockAuth.t :=
  {| HaiBlockAuth.user_pool_id := "us-east-1_demo";
     HaiBlockAuth.client_id := "demo-client";
     HaiBlockAuth.region := "us-east-1";
     HaiBlockAuth.cognito_client := client |}.

End Scenarios.

(** * Properties *)

Import HaiBlockClient Facade Fixtures.

(** ** The scenarios of tests/test_client.py *)

Example test_init_without_token_raises_error :
  exists msg,
    fst (__init__ (Some "https://api.test.com") None
           (fresh no_env no_files (always (NetFail "unreachable"))))
    = inl (AuthenticationError msg).
Proof. eexists. reflexivity. Qed.

Example test_get_analytics_success :
  exists a,
    fst (get_analytics current test_client
           (fresh no_env no_files
              (always (NetResp (reply 200 "OK" "{}"
                                  (inr (JObject analytics_payload)))))))
    = inr a
    /\ AnalyticsData.total_content a = 5
    /\ AnalyticsData.success_rate a = zero_point_eight.
Proof. eexists. repeat split. Qed.

Example test_get_content_success :
  exists c,
    fst (get_content current test_client "test-content-id"
           (fresh no_env no_files
              (always (NetResp (reply 200 "OK" "{}"
                                  (inr (JObject content_test)))))))
    = inr c
    /\ Content.id c = "test-content-id"
    /\ Content.filename c = "test.txt".
Proof. eexists. repeat split. Qed.

Example test_list_content_success :
  exists c1 c2,
    fst (list_content current test_client 50 0
           (fresh no_env no_files
              (always (NetResp
                         (reply 200 "OK" "{}"
                            (inr (JObject
                                    [("items",
                                      JArray [JObject content_test;
                                              JObject content_2])])))))))
    = inr [c1; c2]
    /\ Content.filename c1 = "test.txt"
    /\ Content.status c2 = "processed".
Proof. do 2 eexists. repeat split. Qed.

Example test_api_error_handling :
  exists msg resp,
    fst (get_analytics current test_client
           (fresh no_env no_files
              (always (NetResp (reply 500 "Internal Server Error"
                                  "Internal Server Error" not_json)))))
    = inl (APIError msg (Some 500) resp).
Proof. do 2 eexists. reflexivity. Qed.

Example test_authentication_error_handling :
  exists msg,
    fst (get_analytics current test_client
           (fresh no_env no_files
              (always (NetResp (reply 401 "Unauthorized" "Unauthorized"
                                  not_json)))))
    = inl (AuthenticationError msg).
Proof. eexists. reflexivity. Qed.

(** ** The monad *)

Lemma bind_raise {A B : Type} (m : M A) (k : A -> M B) (w w' : world)
    (e : exn) :
  m w = (inl e, w') -> bind m k w = (inl e, w').
Proof. intros H. unfold bind. now rewrite H. Qed.

Lemma bind_ret {A B : Type} (m : M A) (k : A -> M B) (w w' : world)
    (a : A) :
  m w = (inr a, w') -> bind m k w = k a w'.
Proof. intros H. unfold bind. now rewrite H. Qed.

(** ** Construction of the client *)

Lemma or_else_falsy (a b : option string) :
  Py.truthy a = false -> Py.or_else a b = b.
Proof. intros H. unfold Py.or_else. now rewrite H. Qed.

Lemma init_falsy_token (api_url auth_token : option string) (w : world) :
  Py.truthy auth_token = false ->
  Py.truthy (environ w "HAIBLOCK_AUTH_TOKEN") = false ->
  exists msg,
    __init__ api_url auth_token w = (inl (AuthenticationError msg), w).
Proof.
  intros Ha He. eexists.
  unfold __init__, bind, getenv_default, getenv.
  rewrite (or_else_falsy _ _ Ha).
  destruct (environ w "HAIBLOCK_AUTH_TOKEN") as [tok|]; [|reflexivity].
  rewrite He. reflexivity.
Qed.

Lemma init_world (api_url auth_token : option string) (w : world) :
  snd (__init__ api_url auth_token w) = w.
Proof.
  unfold __init__, bind, getenv_default, getenv.
  destruct (Py.or_else auth_token _) as [tok|]; [|reflexivity].
  now destruct (negb _).
Qed.

(** C4.  With no [auth_token] argument and [HAIBLOCK_AUTH_TOKEN] unset,
    the constructor raises AuthenticationError, and it does so in an
    unchanged world: the log of network calls is the one it started
    with. *)
Theorem init_without_token_raises (api_url : option string) (w : world) :
  environ w "HAIBLOCK_AUTH_TOKEN" = None ->
  exists msg,
    __init__ api_url None w = (inl (AuthenticationError msg), w)
    /\ sent (snd (__init__ api_url None w)) = sent w.
Proof.
  intros He.
  destruct (init_falsy_token api_url None w) as [msg Hm].
  - reflexivity.
  - now rewrite He.
  - exists msg. split; [exact Hm|]. now rewrite Hm.
Qed.

(** The constructor of [test_init_without_token_raises_error]: a URL, no
    token, an empty environment. *)
Lemma init_without_token_raises_witness :
  exists msg,
    __init__ (Some "https://api.test.com") None
      (fresh no_env no_files (always (NetFail "unreachable")))
    = (inl (AuthenticationError msg),
       fresh no_env no_files (always (NetFail "unreachable")))
    /\ sent (snd (__init__ (Some "https://api.test.com") None
                    (fresh no_env no_files (always (NetFail "unreachable")))))
       = sent (fresh no_env no_files (always (NetFail "unreachable"))).
Proof.
  apply (init_without_token_raises (Some "https://api.test.com")
           (fresh no_env no_files (always (NetFail "unreachable")))).
  reflexivity.
Defined.

(** C10.  An empty-string [auth_token] is handled exactly as an absent
    one; with [HAIBLOCK_AUTH_TOKEN] unset it raises AuthenticationError;
    and whatever the arguments and the environment, a client that is
    constructed holds a non-empty token. *)
Theorem init_empty_token_raises (api_url : option string) (w : world) :
  environ w "HAIBLOCK_AUTH_TOKEN" = None ->
  __init__ api_url (Some EmptyString) w = __init__ api_url None w
  /\ (exists msg,
        __init__ api_url (Some EmptyString) w
        = (inl (AuthenticationError msg), w))
  /\ (forall (url tok : option string) (w0 w' : world) (c : t),
        __init__ url tok w0 = (inr c, w') -> auth_token c <> EmptyString).
Proof.
  intros He. split; [reflexivity|]. split.
  - apply init_falsy_token; [reflexivity | now rewrite He].
  - intros url tok w0 w' c.
    unfold __init__, bind, getenv_default, getenv.
    destruct (Py.or_else tok (environ w0 "HAIBLOCK_AUTH_TOKEN"))
      as [s|] eqn:E; [|discriminate].
    unfold Py.truthy.
    destruct (String.eqb_spec s EmptyString); cbn; [discriminate|].
    intros H. injection H as <- _. exact n.
Qed.

(** An empty token in an empty environment. *)
Lemma init_empty_token_raises_witness :
  __init__ None (Some EmptyString)
    (fresh no_env no_files (always (NetFail "down")))
  = __init__ None None (fresh no_env no_files (always (NetFail "down")))
  /\ (exists msg,
        __init__ None (Some EmptyString)
          (fresh no_env no_files (always (NetFail "down")))
        = (inl (AuthenticationError msg),
           fresh no_env no_files (always (NetFail "down"))))
  /\ (forall (url tok : option string) (w0 w' : world) (c : t),
        __init__ url tok w0 = (inr c, w') -> auth_token c <> EmptyString).
Proof.
  apply (init_empty_token_raises None
           (fresh no_env no_files (always (NetFail "down")))).
  reflexivity.
Defined.

(** ** The transport *)

Section Transport.

Variable L : libs.
Variable self : t.

(** What [_make_request] does, case by case on what the network
    answers. *)
Lemma make_request_network_failure (m ep : string)
    (ps : list (string * json)) (w : world) (msg : string) :
  answer w (transport_request self m ep ps) = NetFail msg ->
  _make_request L self m ep ps w
  = (inl (APIError ("Request failed: " ++ msg) None None),
     logged w (transport_request self m ep ps)).
Proof.
  intros H. unfold _make_request, try_except, bind, send.
  now rewrite H.
Qed.

Lemma make_request_http_error (m ep : string) (ps : list (string * json))
    (w : world) (r : response) (msg : string) :
  answer w (transport_request self m ep ps) = NetResp r ->
  http_error_msg r = Some msg ->
  _make_request L self m ep ps w
  = (inl (if status_code r =? 401 then
            AuthenticationError "Invalid or expired authentication token"
          else if status_code r =? 404 then
            ContentNotFoundError "Requested resource not found"
          else APIError ("API request failed: " ++ msg)
                        (Some (status_code r)) (Some r)),
     logged w (transport_request self m ep ps)).
Proof.
  intros H Hm. unfold _make_request, try_except, bind, send, raise_for_status.
  rewrite H, Hm. cbn.
  destruct (status_code r =? 401); [reflexivity|].
  now destruct (status_code r =? 404).
Qed.

Lemma make_request_returns (m ep : string) (ps : list (string * json))
    (w : world) (r : response) (j : json) :
  answer w (transport_request self m ep ps) = NetResp r ->
  http_error_msg r = None ->
  json_body r = inr j ->
  _make_request L self m ep ps w
  = (inr j, logged w (transport_request self m ep ps)).
Proof.
  intros H Hm Hj.
  unfold _make_request, try_except, bind, send, raise_for_status,
    response_json.
  now rewrite H, Hm, Hj.
Qed.

Lemma make_request_not_json (m ep : string) (ps : list (string * json))
    (w : world) (r : response) (msg : string) :
  answer w (transport_request self m ep ps) = NetResp r ->
  http_error_msg r = None ->
  json_body r = inl msg ->
  _make_request L self m ep ps w
  = (inl (if json_error_is_request_exception L
          then APIError ("Request failed: " ++ msg) None None
          else JSONDecodeError msg),
     logged w (transport_request self m ep ps)).
Proof.
  intros H Hm Hj.
  unfold _make_request, try_except, bind, send, raise_for_status,
    response_json.
  rewrite H, Hm, Hj. cbn.
  now destruct (json_error_is_request_exception L).
Qed.

(** An exception out of the transport is the exception of the facade
    call: no facade method catches anything. *)
Lemma perform_transport_raises (c : call) (m ep : string)
    (ps : list (string * json)) (w w' : world) (e : exn) :
  route c = Some (m, ep, ps) ->
  _make_request L self m ep ps w = (inl e, w') ->
  perform L self c w = (Some e, w').
Proof.
  intros Hr H.
  destruct c; cbn in Hr; try discriminate;
    injection Hr as <- <- <-; cbn [perform];
    unfold get_content, list_content, transform_content, submit_to_model,
      get_submission, list_submissions, get_analytics, delete_content;
    cbv zeta; now rewrite (bind_raise _ _ _ _ _ H).
Qed.

Lemma http_error_msg_4xx (r : response) :
  400 <= status_code r < 500 ->
  http_error_msg r
  = Some (Py.str_of_int (status_code r) ++ " Client Error: " ++ reason r
          ++ " for url: " ++ url r).
Proof.
  intros [H1 H2]. unfold http_error_msg.
  apply Z.leb_le in H1. apply Z.ltb_lt in H2. now rewrite H1, H2.
Qed.

Lemma http_error_msg_5xx (r : response) :
  500 <= status_code r < 600 ->
  http_error_msg r
  = Some (Py.str_of_int (status_code r) ++ " Server Error: " ++ reason r
          ++ " for url: " ++ url r).
Proof.
  intros [H1 H2]. unfold http_error_msg.
  assert ((status_code r <? 500) = false) as -> by (apply Z.ltb_ge; lia).
  rewrite andb_false_r.
  apply Z.leb_le in H1. apply Z.ltb_lt in H2. now rewrite H1, H2.
Qed.

Lemma http_error_msg_none (r : response) :
  ~ 400 <= status_code r < 600 -> http_error_msg r = None.
Proof.
  intros H. unfold http_error_msg.
  destruct (400 <=? status_code r) eqn:E1;
    destruct (status_code r <? 500) eqn:E2;
    destruct (500 <=? status_code r) eqn:E3;
    destruct (status_code r <? 600) eqn:E4; cbn; try reflexivity;
    exfalso; apply H;
    repeat match goal with
           | E : (_ <=? _) = true |- _ => apply Z.leb_le in E
           | E : (_ <? _) = true |- _ => apply Z.ltb_lt in E
           | E : (_ <=? _) = false |- _ => apply Z.leb_gt in E
           | E : (_ <? _) = false |- _ => apply Z.ltb_ge in E
           end; lia.
Qed.

(** Every call that goes through the transport turns a 401 into
    AuthenticationError. *)
Lemma routed_401_AuthenticationError (c : call) (rq : request) (w : world)
    (r : response) :
  routed self c = Some rq ->
  answer w rq = NetResp r ->
  status_code r = 401 ->
  perform L self c w
  = (Some (AuthenticationError "Invalid or expired authentication token"),
     logged w rq).
Proof.
  unfold routed. destruct (route c) as [[[m ep] ps]|] eqn:Hr; [|discriminate].
  intros [= <-] Ha Hs.
  apply (perform_transport_raises c m ep ps); [exact Hr|].
  rewrite (make_request_http_error m ep ps w r _ Ha
             (http_error_msg_4xx r ltac:(lia))).
  now rewrite Hs.
Qed.

End Transport.

(** C2.  [upload_file] does not go through the transport: on the file
    [/tmp/notes.txt], answered with a 401, it raises an APIError
    carrying 401 and not an AuthenticationError, which is what a call
    through the transport raises on the same answer. *)
Theorem upload_file_401_raises_APIError :
  let r := reply 401 "Unauthorized" "Unauthorized" not_json in
  let w := fresh no_env some_files (always (NetResp r)) in
  (exists e,
     fst (upload_file current test_client "/tmp/notes.txt" None w) = inl e
     /\ e = APIError "Upload failed: Unauthorized" (Some 401) (Some r)
     /\ is_APIError e = true
     /\ is_AuthenticationError e = false)
  /\ fst (perform current test_client GetAnalytics w)
     = Some (AuthenticationError "Invalid or expired authentication token").
Proof. cbv zeta. split; [eexists; repeat split | reflexivity]. Qed.

(** ** Server errors *)

Lemma prefix_refl (s : string) : String.prefix s s = true.
Proof.
  induction s as [|c s IH]; cbn; [reflexivity|].
  destruct (ascii_dec c c) as [_|N]; [exact IH | now elim N].
Qed.

Lemma includes_refl (s : string) : Py.includes s s = true.
Proof.
  destruct s; [reflexivity|]. cbn [Py.includes]. now rewrite prefix_refl.
Qed.

Lemma includes_suffix (p s : string) : Py.includes s (p ++ s) = true.
Proof.
  induction p as [|c p IH]; [apply includes_refl|].
  cbn [append Py.includes]. rewrite IH. apply orb_true_r.
Qed.

Lemma path_exists_true (path : string) (w : world) (e : fs_entry) :
  fs w path = Some e -> path_exists path w = (inr true, w).
Proof. intros H. unfold path_exists. now rewrite H. Qed.

Lemma path_exists_false (path : string) (w : world) :
  fs w path = None -> path_exists path w = (inr false, w).
Proof. intros H. unfold path_exists. now rewrite H. Qed.

Lemma open_rb_readable (path content : string) (w : world) :
  fs w path = Some (Readable content) -> open_rb path w = (inr content, w).
Proof. intros H. unfold open_rb. now rewrite H. Qed.

Lemma open_rb_unopenable (path : string) (e : exn) (w : world) :
  fs w path = Some (Unopenable e) ->
  open_rb path w = (@inl exn string e, w).
Proof. intros H. unfold open_rb. now rewrite H. Qed.

Lemma send_response (rq : request) (w : world) (r : response) :
  answer w rq = NetResp r -> send rq w = (inr r, logged w rq).
Proof. intros H. unfold send. now rewrite H. Qed.

(** [upload_file] up to the response, for a file that opens. *)
Lemma upload_file_sends (L : libs) (self : t) (path content : string)
    (md : option (list (string * json))) (w : world) (r : response) :
  fs w path = Some (Readable content) ->
  answer w (upload_request self path content md) = NetResp r ->
  upload_file L self path md w
  = (if negb (status_code r =? 200) then
       raise (APIError ("Upload failed: " ++ text r)
                       (Some (status_code r)) (Some r))
     else
       body <~ response_json r ;;
       kw <~ lift (unpack body) ;;
       lift (Content.init (pydantic L) kw))
      (logged w (upload_request self path content md)).
Proof.
  intros Hf Ha. unfold upload_file.
  rewrite (bind_ret _ _ _ _ _ (path_exists_true _ _ _ Hf)). cbn [negb].
  rewrite (bind_ret _ _ _ _ _ (open_rb_readable _ _ _ Hf)).
  now rewrite (bind_ret _ _ _ _ _ (send_response _ _ _ Ha)).
Qed.

Lemma upload_file_bad_status (L : libs) (self : t) (path content : string)
    (md : option (list (string * json))) (w : world) (r : response) :
  fs w path = Some (Readable content) ->
  answer w (upload_request self path content md) = NetResp r ->
  status_code r <> 200 ->
  upload_file L self path md w
  = (inl (APIError ("Upload failed: " ++ text r) (Some (status_code r))
                   (Some r)),
     logged w (upload_request self path content md)).
Proof.
  intros Hf Ha Hs. rewrite (upload_file_sends L self _ _ _ _ _ Hf Ha).
  apply Z.eqb_neq in Hs. now rewrite Hs.
Qed.

(** C3 (counterexample).  [get_analytics] answered with a 500 whose body
    is [db exploded]: the APIError carries 500, but its message is the
    text of the HTTPError (status, reason phrase and URL), in which the
    body does not occur. *)
Lemma get_analytics_500_message_omits_body :
  let r := at_url "https://api.test.haiblock.com/analytics"
             (reply 500 "Internal Server Error" "db exploded" not_json) in
  let w := fresh no_env no_files (always (NetResp r)) in
  exists msg,
    fst (get_analytics current test_client w)
    = inl (APIError msg (Some 500) (Some r))
    /\ msg = "API request failed: 500 Server Error: Internal Server Error for url: https://api.test.haiblock.com/analytics"
    /\ Py.includes (text r) msg = false.
Proof. cbv zeta. eexists. repeat split. Qed.

(** C3 (amended).  A call answered with a 500 raises an APIError that
    carries the status code 500 and the response itself, hence its
    body.  Through the transport the message is that of the HTTPError,
    built from the status, the reason phrase and the URL; in
    [upload_file] the message is ["Upload failed: "] followed by the
    body, which it therefore includes. *)
Theorem status_500_raises_APIError (L : libs) (self : t) (c : call)
    (w : world) (r : response) :
  status_code r = 500 ->
  (forall rq,
     routed self c = Some rq ->
     answer w rq = NetResp r ->
     fst (perform L self c w)
     = Some (APIError ("API request failed: 500 Server Error: " ++ reason r
                       ++ " for url: " ++ url r) (Some 500) (Some r)))
  /\ (forall path md content,
        c = UploadFile path md ->
        fs w path = Some (Readable content) ->
        answer w (upload_request self path content md) = NetResp r ->
        fst (perform L self c w)
        = Some (APIError ("Upload failed: " ++ text r) (Some 500) (Some r))
        /\ Py.includes (text r) ("Upload failed: " ++ text r) = true).
Proof.
  intros Hs. split.
  - intros rq. unfold routed.
    destruct (route c) as [[[m ep] ps]|] eqn:Hr; [|discriminate].
    intros [= <-] Ha.
    rewrite (perform_transport_raises L self c m ep ps w _ _ Hr
               (make_request_http_error L self m ep ps w r _ Ha
                  (http_error_msg_5xx r ltac:(lia)))).
    rewrite Hs. reflexivity.
  - intros path md content -> Hf Ha. split; [|apply includes_suffix].
    cbn [perform].
    rewrite (upload_file_bad_status L self path content md w r Hf Ha
               ltac:(lia)).
    rewrite Hs. reflexivity.
Qed.

(** [get_analytics] answered as in [test_api_error_handling]. *)
Lemma status_500_raises_APIError_witness :
  let r := reply 500 "Internal Server Error" "Internal Server Error"
             not_json in
  let w := fresh no_env some_files (always (NetResp r)) in
  fst (perform current test_client GetAnalytics w)
  = Some (APIError ("API request failed: 500 Server Error: " ++ reason r
                    ++ " for url: " ++ url r) (Some 500) (Some r)).
Proof.
  cbv zeta.
  refine (proj1 (status_500_raises_APIError current test_client GetAnalytics
                   (fresh no_env some_files
                      (always (NetResp (reply 500 "Internal Server Error"
                                          "Internal Server Error" not_json))))
                   (reply 500 "Internal Server Error" "Internal Server Error"
                      not_json) _) _ _ _);
    reflexivity.
Defined.

(** ** Not found *)

(** C7.  A call routed through the transport and answered with a 404
    raises ContentNotFoundError; [get_content] and [list_content] are
    such calls. *)
Theorem status_404_raises_ContentNotFound (L : libs) (self : t) (c : call)
    (rq : request) (w : world) (r : response) :
  routed self c = Some rq ->
  answer w rq = NetResp r ->
  status_code r = 404 ->
  perform L self c w
  = (Some (ContentNotFoundError "Requested resource not found"),
     logged w rq)
  /\ (forall cid, exists q, routed self (GetContent cid) = Some q)
  /\ (forall limit offset,
        exists q, routed self (ListContent limit offset) = Some q).
Proof.
  intros Hq Ha Hs. split; [|split; intros; eexists; reflexivity].
  revert Hq. unfold routed.
  destruct (route c) as [[[m ep] ps]|] eqn:Hr; [|discriminate].
  intros [= <-].
  apply (perform_transport_raises L self c m ep ps); [exact Hr|].
  rewrite (make_request_http_error L self m ep ps w r _ Ha
             (http_error_msg_4xx r ltac:(lia))).
  now rewrite Hs.
Qed.

(** [get_content] on the test client, answered with a 404. *)
Lemma status_404_raises_ContentNotFound_witness :
  let r := reply 404 "Not Found" "no such content" not_json in
  let w := fresh no_env no_files (always (NetResp r)) in
  fst (perform current test_client (GetContent "test-content-id") w)
  = Some (ContentNotFoundError "Requested resource not found").
Proof.
  cbv zeta.
  rewrite (proj1 (status_404_raises_ContentNotFound current test_client
                    (GetContent "test-content-id")
                    (transport_request test_client "GET"
                       "/content/test-content-id" [])
                    (fresh no_env no_files
                       (always (NetResp (reply 404 "Not Found"
                                           "no such content" not_json))))
                    (reply 404 "Not Found" "no such content" not_json)
                    eq_refl eq_refl eq_refl)).
  reflexivity.
Defined.

(** ** Deleting *)

(** Two DELETE calls answered with the same status 200: with a JSON body
    the call returns [True]; with a body that is not JSON it raises.
    The body of a successful response is parsed by the transport. *)
Lemma delete_content_outcome_depends_on_body :
  let json_reply := reply 200 "OK" "{}" (inr (JObject [])) in
  let text_reply := reply 200 "OK" "deleted" not_json in
  status_code json_reply = status_code text_reply
  /\ fst (delete_content current test_client "c1"
            (fresh no_env no_files (always (NetResp json_reply))))
     = inr true
  /\ fst (delete_content current test_client "c1"
            (fresh no_env no_files (always (NetResp text_reply))))
     = inl (APIError
              "Request failed: Expecting value: line 1 column 1 (char 0)"
              None None)
  /\ fst (delete_content legacy test_client "c1"
            (fresh no_env no_files (always (NetResp text_reply))))
     = inl (JSONDecodeError "Expecting value: line 1 column 1 (char 0)").
Proof. cbv zeta. repeat split. Qed.

(** What [delete_content] does on every answer: it never returns
    [False]; it returns [True] exactly when the server answers with a
    status outside 400-599 and a body that parses as JSON, whatever the
    parsed value is; in every other case it raises. *)
Theorem delete_content_returns_true_iff (L : libs) (self : t)
    (content_id : string) (w : world) :
  (forall b, fst (delete_content L self content_id w) = inr b -> b = true)
  /\ (fst (delete_content L self content_id w) = inr true
      <-> exists r j,
            answer w (transport_request self "DELETE"
                        ("/content/" ++ content_id) []) = NetResp r
            /\ ~ 400 <= status_code r < 600
            /\ json_body r = inr j)
  /\ (fst (delete_content L self content_id w) <> inr true
      -> exists e, fst (delete_content L self content_id w) = inl e).
Proof.
  set (rq := transport_request self "DELETE" ("/content/" ++ content_id) []).
  assert (Hrun : forall res w',
             _make_request L self "DELETE" ("/content/" ++ content_id) [] w
             = (res, w') ->
             fst (delete_content L self content_id w)
             = match res with inl e => inl e | inr _ => inr true end).
  { intros res w' H. unfold delete_content.
    destruct res as [e|j].
    - now rewrite (bind_raise _ _ _ _ _ H).
    - now rewrite (bind_ret _ _ _ _ _ H). }
  destruct (answer w rq) as [msg|r] eqn:Ha.
  - pose proof (Hrun _ _ (make_request_network_failure L self _ _ _ w msg Ha))
      as H.
    rewrite H. repeat split.
    + discriminate.
    + discriminate.
    + intros (r & j & Hr & _). discriminate.
    + intros _. eexists. reflexivity.
  - destruct (http_error_msg r) as [msg|] eqn:Hm.
    + pose proof (Hrun _ _ (make_request_http_error L self _ _ _ w r msg
                              Ha Hm)) as H.
      rewrite H. repeat split.
      * discriminate.
      * discriminate.
      * intros (r' & j & [= <-] & Hn & _).
        rewrite (http_error_msg_none _ Hn) in Hm. discriminate.
      * intros _. eexists. reflexivity.
    + assert (Hn : ~ 400 <= status_code r < 600).
      { intros Hr. destruct (Z_lt_dec (status_code r) 500).
        - rewrite http_error_msg_4xx in Hm by lia. discriminate.
        - rewrite http_error_msg_5xx in Hm by lia. discriminate. }
      destruct (json_body r) as [msg|j] eqn:Hj.
      * pose proof (Hrun _ _ (make_request_not_json L self _ _ _ w r msg
                                Ha Hm Hj)) as H.
        rewrite H. repeat split.
        -- discriminate.
        -- discriminate.
        -- intros (r' & j & [= <-] & _ & Hj'). congruence.
        -- intros _. eexists. reflexivity.
      * pose proof (Hrun _ _ (make_request_returns L self _ _ _ w r j
                                Ha Hm Hj)) as H.
        rewrite H. repeat split.
        -- now intros b [= <-].
        -- intros _. exists r, j. auto.
        -- intros N. now elim N.
Qed.

(** A DELETE answered 204 with the JSON body [null]. *)
Lemma delete_content_returns_true_iff_witness :
  fst (delete_content current test_client "c1"
         (fresh no_env no_files
            (always (NetResp (reply 204 "No Content" "null" (inr JNull))))))
  = inr true.
Proof.
  apply (proj2 (proj1 (proj2 (delete_content_returns_true_iff current
                                test_client "c1"
                                (fresh no_env no_files
                                   (always (NetResp (reply 204 "No Content"
                                                       "null" (inr JNull))))))))).
  exists (reply 204 "No Content" "null" (inr JNull)), JNull.
  cbn. repeat split. lia.
Defined.

(** C9.  A deletion the server accepts with 204 No Content and an empty
    body is not reported as successful: [delete_content] goes through
    the JSON transport, which parses the body it then discards, so the
    call raises APIError ["Request failed: ..."] with a current
    [requests], and lets the JSON error through, which is no
    HaiBlockError, with an older one.  The same 204 with a JSON body
    returns [True]. *)
Theorem delete_content_204_empty_body_raises :
  let r := reply 204 "No Content" EmptyString not_json in
  let w := fresh no_env no_files (always (NetResp r)) in
  fst (delete_content current test_client "c1" w)
  = inl (APIError
           "Request failed: Expecting value: line 1 column 1 (char 0)"
           None None)
  /\ fst (delete_content legacy test_client "c1" w)
     = inl (JSONDecodeError "Expecting value: line 1 column 1 (char 0)")
  /\ is_HaiBlockError
       (JSONDecodeError "Expecting value: line 1 column 1 (char 0)") = false
  /\ fst (delete_content current test_client "c1"
            (fresh no_env no_files
               (always (NetResp (reply 204 "No Content" "null"
                                   (inr JNull))))))
     = inr true.
Proof. cbv zeta. repeat split. Qed.

(** ** Listing *)

Lemma list_tail_empty {A : Type} (L : libs) (self : t) (ep : string)
    (ps : list (string * json)) (k : json -> M A) (w : world)
    (r : response) (d : list (string * json)) :
  answer w (transport_request self "GET" ep ps) = NetResp r ->
  200 <= status_code r < 300 ->
  json_body r = inr (JObject d) ->
  lookup "items" d = None ->
  bind (_make_request L self "GET" ep ps)
    (fun data =>
       items <~ lift (dict_get "items" (JArray []) data) ;;
       items <~ lift (iterate items) ;;
       mapM k items) w
  = (inr [], logged w (transport_request self "GET" ep ps)).
Proof.
  intros Ha Hs Hj Hi.
  rewrite (bind_ret _ _ _ _ _
             (make_request_returns L self _ _ _ w r _ Ha
                (http_error_msg_none r ltac:(lia)) Hj)).
  unfold bind, dict_get, get_default. rewrite Hi. reflexivity.
Qed.

(** C5.  When the server answers [list_content] or [list_submissions]
    with a 2xx status and a JSON object that has no [items] key, the
    call returns the empty list. *)
Theorem list_without_items_returns_empty (L : libs) (self : t) (w : world)
    (r : response) (d : list (string * json)) :
  200 <= status_code r < 300 ->
  json_body r = inr (JObject d) ->
  lookup "items" d = None ->
  (forall limit offset,
     answer w (transport_request self "GET" "/content"
                 [("limit", JInt limit); ("offset", JInt offset)])
     = NetResp r ->
     fst (list_content L self limit offset w) = inr [])
  /\ (forall content_id limit offset,
        answer w (transport_request self "GET" "/submissions"
                    (list_submissions_params content_id limit offset))
        = NetResp r ->
        fst (list_submissions L self content_id limit offset w) = inr []).
Proof.
  intros Hs Hj Hi. split.
  - intros limit offset Ha. unfold list_content. cbv zeta.
    now rewrite (list_tail_empty L self _ _ _ w r d Ha Hs Hj Hi).
  - intros cid limit offset Ha. unfold list_submissions. cbv zeta.
    now rewrite (list_tail_empty L self _ _ _ w r d Ha Hs Hj Hi).
Qed.

(** Both listings answered 200 with the body [{}]. *)
Lemma list_without_items_returns_empty_witness :
  let w := fresh no_env no_files
             (always (NetResp (reply 200 "OK" "{}" (inr (JObject []))))) in
  fst (list_content current test_client 50 0 w) = inr []
  /\ fst (list_submissions current test_client None 50 0 w) = inr [].
Proof.
  cbv zeta.
  pose proof (list_without_items_returns_empty current test_client
                (fresh no_env no_files
                   (always (NetResp (reply 200 "OK" "{}"
                                       (inr (JObject []))))))
                (reply 200 "OK" "{}" (inr (JObject []))) []
                ltac:(cbn; lia) eq_refl eq_refl) as [H1 H2].
  split; [apply H1 | apply H2]; reflexivity.
Defined.

(** ** Uploading *)

Lemma lookup_filter_out (k : string) (l : list (string * string)) :
  lookup k (filter (fun kv => negb (String.eqb (fst kv) k)) l) = None.
Proof.
  induction l as [|[k' v] l IH]; [reflexivity|].
  cbn [filter fst]. destruct (String.eqb_spec k' k) as [->|N]; cbn [negb].
  - exact IH.
  - cbn [lookup]. rewrite (proj2 (String.eqb_neq k k')); [exact IH|].
    intros E. now apply N.
Qed.

(** C6 (counterexample).  [/tmp] exists and is a directory:
    [upload_file] passes the existence check, [open] raises, and nothing
    is sent. *)
Lemma upload_file_existing_directory_sends_nothing :
  let r := reply 200 "OK" "{}" (inr (JObject content_2)) in
  let w := fresh no_env some_files (always (NetResp r)) in
  fst (path_exists "/tmp" w) = inr true
  /\ fst (upload_file current test_client "/tmp" None w)
     = inl (IsADirectoryError "[Errno 21] Is a directory: '/tmp'")
  /\ sent (snd (upload_file current test_client "/tmp" None w)) = [].
Proof. cbv zeta. repeat split. Qed.

(** ** The model layer: the status field *)

(** Peels the chain of field validations off a successful [validate]. *)
Ltac validate_inv :=
  repeat match goal with
         | |- match ?x with Some _ => _ | None => _ end = Some _ -> _ =>
             let E := fresh "E" in destruct x eqn:E; [|discriminate]
         end.

Lemma Content_validate_status (P : coercions) (kw : list (string * json))
    (c : Content.t) :
  Content.validate P kw = Some c ->
  required (str_validator P) "status" kw = Some (Content.status c).
Proof.
  unfold Content.validate. validate_inv. now intros [= <-].
Qed.

Lemma Submission_validate_status (P : coercions) (kw : list (string * json))
    (s : Submission.t) :
  Submission.validate P kw = Some s ->
  required (str_validator P) "status" kw = Some (Submission.status s).
Proof.
  unfold Submission.validate. validate_inv. now intros [= <-].
Qed.

Lemma construct_inr {A : Type} (model : string) (v : option A) (a : A) :
  construct model v = inr a <-> v = Some a.
Proof.
  unfold construct. destruct v; split; intros H; try discriminate;
    now inversion H.
Qed.

Lemma Content_validate_restatus (P : coercions) (kw : list (string * json))
    (c : Content.t) (s' : string) :
  Content.validate P kw = Some c ->
  exists c',
    Content.validate P (("status", JString s') :: kw) = Some c'
    /\ Content.status c' = s'.
Proof.
  unfold Content.validate, required, optional. cbn [lookup].
  cbn [String.eqb Ascii.eqb Bool.eqb andb].
  validate_inv. intros _. eexists. split; reflexivity.
Qed.

Lemma Submission_validate_restatus (P : coercions)
    (kw : list (string * json)) (s : Submission.t) (s' : string) :
  Submission.validate P kw = Some s ->
  exists s0,
    Submission.validate P (("status", JString s') :: kw) = Some s0
    /\ Submission.status s0 = s'.
Proof.
  unfold Submission.validate, required, optional. cbn [lookup].
  cbn [String.eqb Ascii.eqb Bool.eqb andb].
  validate_inv. intros _. eexists. split; reflexivity.
Qed.

Lemma required_str_missing (P : coercions) (name : string)
    (kw : list (string * json)) :
  lookup name kw = None \/ lookup name kw = Some JNull ->
  required (str_validator P) name kw = None.
Proof. unfold required. now intros [-> | ->]. Qed.

(** C1 (counterexample).  The second item of [test_list_content_success]
    has the status [processed], which the comment on [Content.status]
    does not list; it decodes, and the entity carries [processed].  The
    same holds of a Submission with the status [queued]. *)
Lemma unlisted_status_is_accepted :
  lookup "status" content_2 = Some (JString "processed")
  /\ ~ In "processed" Content.statuses
  /\ (exists c, Content.init strict content_2 = inr c
                /\ Content.status c = "processed")
  /\ lookup "status" submission_queued = Some (JString "queued")
  /\ ~ In "queued" Submission.statuses
  /\ (exists s, Submission.init strict submission_queued = inr s
                /\ Submission.status s = "queued").
Proof.
  assert (N : forall (a : string) (l : list string),
             forallb (fun x => negb (String.eqb a x)) l = true -> ~ In a l).
  { intros a l H Hin. rewrite forallb_forall in H. specialize (H a Hin).
    now rewrite String.eqb_refl in H. }
  split; [reflexivity|]. split; [now apply N|].
  split; [eexists; split; reflexivity|].
  split; [reflexivity|]. split; [now apply N|].
  eexists; split; reflexivity.
Qed.

(** C1 (amended).  The decoders of Content and Submission validate
    [status] as a string and nothing more.  A payload whose [status] is
    a string and that decodes yields an entity carrying that string
    unchanged, and it still decodes, to an entity carrying the new
    value, when its status is replaced by any other string, listed or
    not.  A payload without a [status], or with a null one, raises
    pydantic's ValidationError for the model, and no other error. *)
Theorem status_is_validated_as_str_only (P : coercions)
    (kw : list (string * json)) :
  (forall s c,
     lookup "status" kw = Some (JString s) ->
     Content.init P kw = inr c ->
     Content.status c = s
     /\ forall s', exists c',
          Content.init P (("status", JString s') :: kw) = inr c'
          /\ Content.status c' = s')
  /\ (forall s x,
        lookup "status" kw = Some (JString s) ->
        Submission.init P kw = inr x ->
        Submission.status x = s
        /\ forall s', exists x',
             Submission.init P (("status", JString s') :: kw) = inr x'
             /\ Submission.status x' = s')
  /\ (lookup "status" kw = None \/ lookup "status" kw = Some JNull ->
      Content.init P kw = inl (PydanticValidationError "Content")
      /\ Submission.init P kw = inl (PydanticValidationError "Submission")).
Proof.
  split; [|split].
  - intros s c Hs Hc. apply construct_inr in Hc. split.
    + apply Content_validate_status in Hc. unfold required in Hc.
      rewrite Hs in Hc. cbn in Hc. congruence.
    + intros s'.
      destruct (Content_validate_restatus P kw c s' Hc) as (c' & H1 & H2).
      exists c'. split; [|exact H2]. now apply construct_inr.
  - intros s x Hs Hx. apply construct_inr in Hx. split.
    + apply Submission_validate_status in Hx. unfold required in Hx.
      rewrite Hs in Hx. cbn in Hx. congruence.
    + intros s'.
      destruct (Submission_validate_restatus P kw x s' Hx) as (x' & H1 & H2).
      exists x'. split; [|exact H2]. now apply construct_inr.
  - intros Hm. pose proof (required_str_missing P "status" kw Hm) as Hr.
    split.
    + unfold Content.init. destruct (Content.validate P kw) as [c|] eqn:E.
      * apply Content_validate_status in E. congruence.
      * reflexivity.
    + unfold Submission.init.
      destruct (Submission.validate P kw) as [x|] eqn:E.
      * apply Submission_validate_status in E. congruence.
      * reflexivity.
Qed.

(** The test payload with the status [processed], re-stamped
    [archived]. *)
Lemma status_is_validated_as_str_only_witness :
  exists c,
    Content.init strict (("status", JString "archived") :: content_2)
    = inr c
    /\ Content.status c = "archived".
Proof.
  destruct (Content.init strict content_2) as [e|c] eqn:E;
    [discriminate E|].
  exact (proj2 (proj1 (status_is_validated_as_str_only strict content_2)
                  "processed" c eq_refl E) "archived").
Defined.

(** ** The model layer: round trips *)

Section Codecs.

Variable P : coercions.

Lemma str_faithful : faithful TStr (str_validator P) JString.
Proof.
  split; [reflexivity|]. intros [] H; try discriminate H. eauto.
Qed.

Lemma int_faithful : faithful TInt (int_validator P) JInt.
Proof.
  split; [reflexivity|]. intros [] H; try discriminate H. eauto.
Qed.

Lemma float_faithful : faithful TFloat (float_validator P) JFloat.
Proof.
  split; [reflexivity|]. intros [] H; try discriminate H. eauto.
Qed.

Lemma bool_faithful : faithful TBool (bool_validator P) JBool.
Proof.
  split; [reflexivity|]. intros [] H; try discriminate H. eauto.
Qed.

Lemma any_faithful : faithful TAny any_validator dump_any.
Proof. split; [reflexivity|]. intros j _. now exists j. Qed.

Lemma traverse_map {A B : Type} (f : B -> option A) (g : A -> B)
    (l : list A) :
  (forall a, f (g a) = Some a) -> traverse f (map g l) = Some l.
Proof.
  intros H. induction l as [|a l IH]; [reflexivity|].
  cbn. now rewrite H, IH.
Qed.

Lemma forallb_is_map {A : Type} (T : annotation) (d : A -> json)
    (l : list json) :
  (forall j, has_type T j = true -> exists a, j = d a) ->
  forallb (has_type T) l = true -> exists m, l = map d m.
Proof.
  intros H. induction l as [|j l IH]; intros Hall.
  - now exists [].
  - cbn in Hall. apply andb_true_iff in Hall as [Hj Hl].
    destruct (H j Hj) as [a ->]. destruct (IH Hl) as [m ->].
    now exists (a :: m).
Qed.

Lemma dict_faithful {A : Type} (T : annotation) (v : validator A)
    (d : A -> json) :
  faithful T v d -> faithful (TDict T) (dict_validator P v) (dump_dict d).
Proof.
  intros [Hv Ht]. split.
  - intros m. cbn. unfold traverse_items. apply traverse_map.
    intros [k a]. cbn. now rewrite Hv.
  - intros [] H; try discriminate H. cbn in H.
    induction members as [|[k j] l IH].
    + now exists [].
    + cbn in H. apply andb_true_iff in H as [Hj Hl].
      destruct (Ht j Hj) as [a ->]. destruct (IH Hl) as [m Hm].
      exists ((k, a) :: m). unfold dump_dict in *. cbn. congruence.
Qed.

Lemma list_faithful {A : Type} (T : annotation) (v : validator A)
    (d : A -> json) :
  faithful T v d -> faithful (TList T) (list_validator P v) (dump_list d).
Proof.
  intros [Hv Ht]. split.
  - intros l. cbn. now apply traverse_map.
  - intros [] H; try discriminate H. cbn in H.
    destruct (forallb_is_map T d items Ht H) as [m ->]. now exists m.
Qed.

Lemma dump_dict_never_null {A : Type} (d : A -> json) :
  never_null (dump_dict d).
Proof. intros a. discriminate. Qed.

Lemma dump_list_never_null {A : Type} (d : A -> json) :
  never_null (dump_list d).
Proof. intros a. discriminate. Qed.

Lemma JString_never_null : never_null JString.
Proof. intros a. discriminate. Qed.

Lemma JInt_never_null : never_null JInt.
Proof. intros a. discriminate. Qed.

Lemma JFloat_never_null : never_null JFloat.
Proof. intros a. discriminate. Qed.

Lemma JBool_never_null : never_null JBool.
Proof. intros a. discriminate. Qed.

(** A field the payload holds with a dumped value validates to it. *)
Lemma required_of_lookup {A : Type} (T : annotation) (v : validator A)
    (d : A -> json) (name : string) (kw : list (string * json)) (a : A) :
  faithful T v d ->
  lookup name kw = Some (d a) -> required v name kw = Some a.
Proof. intros [Hv _] Hl. unfold required. now rewrite Hl. Qed.

Lemma optional_of_lookup {A : Type} (T : annotation) (v : validator A)
    (d : A -> json) (name : string) (kw : list (string * json))
    (oa : option A) :
  faithful T v d -> never_null d ->
  lookup name kw = Some (dump_opt d oa) -> optional v name kw = Some oa.
Proof.
  intros [Hv _] Hn Hl. unfold optional. rewrite Hl.
  destruct oa as [a|]; [|reflexivity]. cbn [dump_opt].
  specialize (Hv a). specialize (Hn a).
  destruct (d a); try now rewrite Hv. now elim Hn.
Qed.

(** A field that matches its annotation validates, to a value whose dump
    is what the payload holds. *)
Lemma required_field {A : Type} (T : annotation) (v : validator A)
    (d : A -> json) (name : string) (kw : list (string * json)) :
  faithful T v d -> is_optional T = false ->
  field_matches kw (name, T) = true ->
  exists a, required v name kw = Some a /\ lookup name kw = Some (d a).
Proof.
  intros [Hv Ht] Ho. unfold field_matches, required. cbn [fst snd].
  destruct (lookup name kw) as [j|]; [|congruence].
  intros Hj. destruct (Ht j Hj) as [a ->]. exists a. now rewrite Hv.
Qed.

Lemma optional_field {A : Type} (T : annotation) (v : validator A)
    (d : A -> json) (name : string) (kw : list (string * json)) :
  faithful T v d -> never_null d ->
  field_matches kw (name, TOptional T) = true ->
  exists oa,
    optional v name kw = Some oa
    /\ forall j, lookup name kw = Some j -> j = dump_opt d oa.
Proof.
  intros [Hv Ht] Hn. unfold field_matches, optional. cbn [fst snd].
  destruct (lookup name kw) as [j|].
  - intros Hj.
    assert (Hc : j = JNull \/ has_type T j = true)
      by (destruct j; cbn in Hj; auto).
    destruct Hc as [-> | Hc].
    + exists None. split; [reflexivity|]. now intros j [= <-].
    + destruct (Ht j Hc) as [a ->]. exists (Some a).
      split; [|now intros j [= <-]].
      specialize (Hv a). specialize (Hn a).
      destruct (d a); try now rewrite Hv. now elim Hn.
  - intros _. exists None. split; [reflexivity|]. discriminate.
Qed.

End Codecs.

Create HintDb codec.

#[local] Hint Resolve str_faithful int_faithful float_faithful bool_faithful
  any_faithful dict_faithful list_faithful dump_dict_never_null
  dump_list_never_null JString_never_null JInt_never_null
  JFloat_never_null JBool_never_null : codec.

(** Validates the fields of a dumped entity one after the other. *)
Ltac dumped_fields :=
  repeat match goal with
         | |- context [required ?v ?name ?kw] =>
             erewrite (required_of_lookup _ v _ name kw);
             [ | solve [eauto with codec] | reflexivity ]
         | |- context [optional ?v ?name ?kw] =>
             erewrite (optional_of_lookup _ v _ name kw);
             [ | solve [eauto with codec] | solve [eauto with codec]
               | reflexivity ]
         end.


(** Turns every matched field into its validated value. *)
Ltac faithful_at P T :=
  lazymatch T with
  | TStr => constr:(str_faithful P)
  | TInt => constr:(int_faithful P)
  | TFloat => constr:(float_faithful P)
  | TBool => constr:(bool_faithful P)
  | TAny => constr:(any_faithful)
  | TDict ?T' =>
      let F := faithful_at P T' in constr:(dict_faithful P _ _ _ F)
  | TList ?T' =>
      let F := faithful_at P T' in constr:(list_faithful P _ _ _ F)
  end.

Ltac matched_fields P :=
  repeat match goal with
         | H : field_matches ?kw (?n, TOptional ?T) = true |- _ =>
             let F := faithful_at P T in
             destruct (optional_field _ _ _ n kw F
                         ltac:(eauto with codec) H) as (? & ? & ?);
             clear H
         | H : field_matches ?kw (?n, ?T) = true |- _ =>
             let F := faithful_at P T in
             destruct (required_field _ _ _ n kw F eq_refl H) as (? & ? & ?);
             clear H
         end.

Ltac split_schema H :=
  unfold matches_schema in H; cbn [forallb] in H;
  repeat (let H' := fresh "M" in
          apply andb_true_iff in H; destruct H as [H' H]);
  clear H.

Ltac decoded_fields :=
  repeat match goal with
         | V : required _ _ _ = Some _ |- _ => rewrite V; clear V
         | V : optional _ _ _ = Some _ |- _ => rewrite V; clear V
         end.

Ltac same_field Hl :=
  match type of Hl with
  | lookup ?n ?kw = Some _ =>
      first [ match goal with
              | E : lookup n kw = Some _ |- _ =>
                  rewrite E in Hl; injection Hl as <-; reflexivity
              end
            | match goal with
              | O : forall j, lookup n kw = Some j -> _ |- _ =>
                  apply O in Hl; subst; reflexivity
              end ]
  end.











(** * Further properties of the client *)

(** ** What the transport raises *)

(** X1.  A call routed through the transport whose request gets no
    response raises an APIError with the text of the network failure, no
    status code and no response; the attempt is logged. *)
Theorem network_failure_raises_APIError (L : libs) (self : t) (c : call)
    (rq : request) (w : world) (msg : string) :
  routed self c = Some rq ->
  answer w rq = NetFail msg ->
  perform L self c w
  = (Some (APIError ("Request failed: " ++ msg) None None), logged w rq).
Proof.
  unfold routed. destruct (route c) as [[[m ep] ps]|] eqn:Hr; [|discriminate].
  intros [= <-] Ha.
  apply (perform_transport_raises L self c m ep ps); [exact Hr|].
  now apply make_request_network_failure.
Qed.

(** [get_analytics] when the host cannot be reached. *)
Lemma network_failure_raises_APIError_witness :
  fst (perform current test_client GetAnalytics
         (fresh no_env no_files (always (NetFail "Connection refused"))))
  = Some (APIError "Request failed: Connection refused" None None).
Proof.
  rewrite (network_failure_raises_APIError current test_client GetAnalytics
             (transport_request test_client "GET" "/analytics" [])
             (fresh no_env no_files (always (NetFail "Connection refused")))
             "Connection refused" eq_refl eq_refl).
  reflexivity.
Defined.

(** X2.  A call routed through the transport and answered with a 4xx or
    5xx status other than 401 and 404 raises an APIError that carries
    that very status and the response, with the text of the HTTPError in
    its message. *)
Theorem http_error_raises_APIError_with_status (L : libs) (self : t)
    (c : call) (rq : request) (w : world) (r : response) :
  routed self c = Some rq ->
  answer w rq = NetResp r ->
  400 <= status_code r < 600 ->
  status_code r <> 401 ->
  status_code r <> 404 ->
  exists msg,
    http_error_msg r = Some msg
    /\ perform L self c w
       = (Some (APIError ("API request failed: " ++ msg)
                         (Some (status_code r)) (Some r)),
          logged w rq).
Proof.
  unfold routed. destruct (route c) as [[[m ep] ps]|] eqn:Hr; [|discriminate].
  intros [= <-] Ha Hs H401 H404.
  assert (Hm : exists msg, http_error_msg r = Some msg).
  { destruct (Z_lt_dec (status_code r) 500).
    - rewrite http_error_msg_4xx by lia. eauto.
    - rewrite http_error_msg_5xx by lia. eauto. }
  destruct Hm as [msg Hm]. exists msg. split; [exact Hm|].
  apply (perform_transport_raises L self c m ep ps); [exact Hr|].
  rewrite (make_request_http_error L self m ep ps w r msg Ha Hm).
  apply Z.eqb_neq in H401, H404. now rewrite H401, H404.
Qed.

(** [delete_content] answered 403. *)
Lemma http_error_raises_APIError_with_status_witness :
  exists msg,
    fst (perform current test_client (DeleteContent "c1")
           (fresh no_env no_files
              (always (NetResp (reply 403 "Forbidden" "no" not_json)))))
    = Some (APIError msg (Some 403)
              (Some (reply 403 "Forbidden" "no" not_json))).
Proof.
  destruct (http_error_raises_APIError_with_status current test_client
              (DeleteContent "c1")
              (transport_request test_client "DELETE" "/content/c1" [])
              (fresh no_env no_files
                 (always (NetResp (reply 403 "Forbidden" "no" not_json))))
              (reply 403 "Forbidden" "no" not_json)
              eq_refl eq_refl ltac:(cbn; lia) ltac:(cbn; lia)
              ltac:(cbn; lia)) as (msg & _ & H).
  eexists. rewrite H. reflexivity.
Defined.

(** X3.  With a [requests] whose JSON error is a [RequestException],
    whatever the transport raises is one of the SDK's AuthenticationError,
    ContentNotFoundError or APIError: no foreign exception escapes
    [_make_request]. *)
Theorem make_request_raises_only_sdk_errors (L : libs) (self : t)
    (m ep : string) (ps : list (string * json)) (w w' : world) (e : exn) :
  json_error_is_request_exception L = true ->
  _make_request L self m ep ps w = (inl e, w') ->
  is_HaiBlockError e = true
  /\ match e with
     | AuthenticationError _ | ContentNotFoundError _ | APIError _ _ _ =>
         True
     | _ => False
     end.
Proof.
  intros HL.
  destruct (answer w (transport_request self m ep ps)) as [msg|r] eqn:Ha.
  - rewrite (make_request_network_failure L self m ep ps w msg Ha).
    intros [= <- _]. now split.
  - destruct (http_error_msg r) as [msg|] eqn:Hm.
    + rewrite (make_request_http_error L self m ep ps w r msg Ha Hm).
      intros [= <- _].
      destruct (status_code r =? 401); [now split|].
      destruct (status_code r =? 404); now split.
    + destruct (json_body r) as [msg|j] eqn:Hj.
      * rewrite (make_request_not_json L self m ep ps w r msg Ha Hm Hj), HL.
        intros [= <- _]. now split.
      * rewrite (make_request_returns L self m ep ps w r j Ha Hm Hj).
        discriminate.
Qed.

(** A 200 answer whose body is not JSON. *)
Lemma make_request_raises_only_sdk_errors_witness :
  is_HaiBlockError
    (APIError "Request failed: Expecting value: line 1 column 1 (char 0)"
       None None) = true.
Proof.
  exact (proj1 (make_request_raises_only_sdk_errors current test_client
                  "GET" "/analytics" []
                  (fresh no_env no_files
                     (always (NetResp (reply 200 "OK" "<html>" not_json))))
                  _ _ eq_refl eq_refl)).
Defined.

(** ** What [upload_file] raises *)

(** X4.  [upload_file] takes only the status 200 for success: answered
    with any other status, a 2xx one or a 404 included, it raises an
    APIError carrying that status, with the body in its message. *)
Theorem upload_file_rejects_every_status_but_200 (L : libs) (self : t)
    (path content : string) (md : option (list (string * json)))
    (w : world) (r : response) :
  fs w path = Some (Readable content) ->
  answer w (upload_request self path content md) = NetResp r ->
  status_code r <> 200 ->
  perform L self (UploadFile path md) w
  = (Some (APIError ("Upload failed: " ++ text r) (Some (status_code r))
                    (Some r)),
     logged w (upload_request self path content md)).
Proof.
  intros Hf Ha Hs. cbn [perform].
  now rewrite (upload_file_bad_status L self path content md w r Hf Ha Hs).
Qed.

(** An upload answered 201 Created with a valid Content document. *)
Lemma upload_file_rejects_every_status_but_200_witness :
  fst (perform current test_client (UploadFile "/tmp/notes.txt" None)
         (fresh no_env some_files
            (always (NetResp (reply 201 "Created" "{}"
                                (inr (JObject content_test)))))))
  = Some (APIError "Upload failed: {}" (Some 201)
            (Some (reply 201 "Created" "{}" (inr (JObject content_test))))).
Proof.
  rewrite (upload_file_rejects_every_status_but_200 current test_client
             "/tmp/notes.txt" "hello" None
             (fresh no_env some_files
                (always (NetResp (reply 201 "Created" "{}"
                                    (inr (JObject content_test))))))
             (reply 201 "Created" "{}" (inr (JObject content_test)))
             eq_refl eq_refl ltac:(cbn; lia)).
  reflexivity.
Defined.

Lemma upload_file_no_response (L : libs) (self : t)
    (path content : string) (md : option (list (string * json)))
    (w : world) (msg : string) :
  fs w path = Some (Readable content) ->
  answer w (upload_request self path content md) = NetFail msg ->
  upload_file L self path md w
  = (inl (RequestException msg),
     logged w (upload_request self path content md)).
Proof.
  intros Hf Ha. unfold upload_file.
  rewrite (bind_ret _ _ _ _ _ (path_exists_true _ _ _ Hf)). cbn [negb].
  rewrite (bind_ret _ _ _ _ _ (open_rb_readable _ _ _ Hf)).
  apply bind_raise. unfold send. now rewrite Ha.
Qed.

(** X5.  A network failure during [upload_file] is not translated: the
    RequestException of [requests] reaches the caller as it is, where
    the transport would raise an APIError. *)
Theorem upload_file_network_failure_escapes (L : libs) (self : t)
    (path content : string) (md : option (list (string * json)))
    (w : world) (msg : string) :
  fs w path = Some (Readable content) ->
  answer w (upload_request self path content md) = NetFail msg ->
  upload_file L self path md w
  = (inl (RequestException msg),
     logged w (upload_request self path content md))
  /\ is_HaiBlockError (RequestException msg) = false.
Proof.
  intros Hf Ha. split; [|reflexivity].
  now apply upload_file_no_response.
Qed.

(** An upload while the host cannot be reached. *)
Lemma upload_file_network_failure_escapes_witness :
  fst (upload_file current test_client "/tmp/notes.txt" None
         (fresh no_env some_files (always (NetFail "Connection refused"))))
  = inl (RequestException "Connection refused").
Proof.
  rewrite (proj1 (upload_file_network_failure_escapes current test_client
                    "/tmp/notes.txt" "hello" None
                    (fresh no_env some_files
                       (always (NetFail "Connection refused")))
                    "Connection refused" eq_refl eq_refl)).
  reflexivity.
Defined.

(** ** One exchange per call *)

Lemma lift_world {A : Type} (r : exn + A) (w : world) :
  snd (lift r w) = w.
Proof. now destruct r. Qed.

Lemma bind_world {A B : Type} (m : M A) (k : A -> M B) (w w1 : world) :
  snd (m w) = w1 ->
  (forall a, snd (k a w1) = w1) ->
  snd (bind m k w) = w1.
Proof.
  intros Hm Hk. unfold bind. destruct (m w) as [[e|a] w2]; cbn in Hm; subst.
  - reflexivity.
  - apply Hk.
Qed.

Lemma mapM_world {A B : Type} (f : A -> M B) (l : list A) (w : world) :
  (forall a, snd (f a w) = w) -> snd (mapM f l w) = w.
Proof.
  intros Hf. induction l as [|a l IH]; [reflexivity|].
  cbn [mapM]. apply bind_world; [apply Hf|].
  intros b. apply bind_world; [exact IH|]. reflexivity.
Qed.

Lemma decode_world {A : Type} (init : list (string * json) -> exn + A)
    (j : json) (w : world) :
  snd ((kw <~ lift (unpack j) ;; lift (init kw)) w) = w.
Proof. apply bind_world; [apply lift_world|]. intros kw. apply lift_world. Qed.

Lemma decode_list_world {A : Type}
    (init : list (string * json) -> exn + A) (data : json) (w : world) :
  snd ((items <~ lift (dict_get "items" (JArray []) data) ;;
        items <~ lift (iterate items) ;;
        mapM (fun item => kw <~ lift (unpack item) ;; lift (init kw)) items)
         w) = w.
Proof.
  apply bind_world; [apply lift_world|]. intros v.
  apply bind_world; [apply lift_world|]. intros l.
  apply mapM_world. intros a. apply decode_world.
Qed.

Lemma make_request_world (L : libs) (self : t) (m ep : string)
    (ps : list (string * json)) (w : world) :
  snd (_make_request L self m ep ps w)
  = logged w (transport_request self m ep ps).
Proof.
  destruct (answer w (transport_request self m ep ps)) as [msg|r] eqn:Ha.
  - now rewrite (make_request_network_failure L self m ep ps w msg Ha).
  - destruct (http_error_msg r) as [msg|] eqn:Hm.
    + now rewrite (make_request_http_error L self m ep ps w r msg Ha Hm).
    + destruct (json_body r) as [msg|j] eqn:Hj.
      * now rewrite (make_request_not_json L self m ep ps w r msg Ha Hm Hj).
      * now rewrite (make_request_returns L self m ep ps w r j Ha Hm Hj).
Qed.

Lemma outcome_world {A : Type} (r : (exn + A) * world) :
  snd (outcome r) = snd r.
Proof. now destruct r as [[e|a] w]. Qed.

Lemma upload_file_world (L : libs) (self : t) (path : string)
    (md : option (list (string * json))) (w : world) :
  snd (upload_file L self path md w)
  = match fs w path with
    | Some (Readable content) =>
        logged w (upload_request self path content md)
    | _ => w
    end.
Proof.
  destruct (fs w path) as [[content|e]|] eqn:Hf.
  - destruct (answer w (upload_request self path content md))
      as [msg|r] eqn:Ha.
    + now rewrite (upload_file_no_response L self path content md w msg
                     Hf Ha).
    + rewrite (upload_file_sends L self path content md w r Hf Ha).
      destruct (negb (status_code r =? 200)); [reflexivity|].
      apply bind_world.
      * unfold response_json. now destruct (json_body r).
      * intros j. apply decode_world.
  - unfold upload_file.
    rewrite (bind_ret _ _ _ _ _ (path_exists_true _ _ _ Hf)). cbn [negb].
    now rewrite (bind_raise _ _ _ _ _ (open_rb_unopenable _ _ _ Hf)).
  - unfold upload_file.
    now rewrite (bind_ret _ _ _ _ _ (path_exists_false _ _ Hf)).
Qed.

(** C6 (amended).  For a path that does not exist [upload_file] raises
    FileNotFoundError and the world, with its log of network calls, is
    unchanged.  For a path that exists and opens for reading it issues
    exactly one call, whatever the answer to it: a multipart POST to
    [/upload] carrying the file under its base name, with no content
    type of its own; and when that call is answered with status 200 and
    a JSON object that validates as Content, it returns that Content.  A
    path that exists but does not open raises the error of [open],
    again with no network call. *)
Theorem upload_file_behaviour (L : libs) (self : t) (path : string)
    (md : option (list (string * json))) (w : world) :
  (fs w path = None ->
   upload_file L self path md w
   = (inl (FileNotFoundError ("File not found: " ++ path)), w))
  /\ (forall content,
        fs w path = Some (Readable content) ->
        snd (upload_file L self path md w)
        = logged w (upload_request self path content md)
        /\ sent (snd (upload_file L self path md w))
           = (sent w ++ [upload_request self path content md])%list
        /\ method (upload_request self path content md) = "POST"
        /\ target (upload_request self path content md)
           = api_url self ++ "/upload"
        /\ files (upload_request self path content md)
           = [("file", (Py.basename path, content))]
        /\ lookup "Content-Type"
             (headers (upload_request self path content md)) = None
        /\ forall r kw c,
             answer w (upload_request self path content md) = NetResp r ->
             status_code r = 200 ->
             json_body r = inr (JObject kw) ->
             Content.init (pydantic L) kw = inr c ->
             upload_file L self path md w
             = (inr c, logged w (upload_request self path content md)))
  /\ (forall e,
        fs w path = Some (Unopenable e) ->
        upload_file L self path md w = (inl e, w)).
Proof.
  split; [|split].
  - intros Hf. unfold upload_file.
    now rewrite (bind_ret _ _ _ _ _ (path_exists_false _ _ Hf)).
  - intros content Hf.
    assert (Hw : snd (upload_file L self path md w)
                 = logged w (upload_request self path content md))
      by (now rewrite upload_file_world, Hf).
    split; [exact Hw|]. split; [now rewrite Hw|].
    split; [reflexivity|]. split; [reflexivity|]. split; [reflexivity|].
    split; [apply lookup_filter_out|].
    intros r kw c Ha Hs Hj Hc.
    rewrite (upload_file_sends L self _ _ _ _ _ Hf Ha), Hs.
    cbn [Z.eqb negb Pos.eqb].
    unfold bind, response_json. rewrite Hj. cbn. now rewrite Hc.
  - intros e Hf. unfold upload_file.
    rewrite (bind_ret _ _ _ _ _ (path_exists_true _ _ _ Hf)). cbn [negb].
    now rewrite (bind_raise _ _ _ _ _ (open_rb_unopenable _ _ _ Hf)).
Qed.

(** A path that is not there; [/tmp/notes.txt] answered with a 500,
    which is sent all the same; and [/tmp/notes.txt] answered 200 with a
    Content payload. *)
Lemma upload_file_behaviour_witness :
  upload_file current test_client "/nowhere/missing.txt" None
    (fresh no_env some_files (always (NetFail "unreachable")))
  = (inl (FileNotFoundError "File not found: /nowhere/missing.txt"),
     fresh no_env some_files (always (NetFail "unreachable")))
  /\ sent (snd (upload_file current test_client "/tmp/notes.txt" None
                  (fresh no_env some_files
                     (always (NetResp (reply 500 "Internal Server Error"
                                         "boom" not_json))))))
     = [upload_request test_client "/tmp/notes.txt" "hello" None]
  /\ exists c,
       fst (upload_file current test_client "/tmp/notes.txt" None
              (fresh no_env some_files
                 (always (NetResp (reply 200 "OK" "{}"
                                     (inr (JObject content_2)))))))
       = inr c
       /\ Content.filename c = "test2.txt".
Proof.
  split; [|split].
  - apply (proj1 (upload_file_behaviour current test_client
                    "/nowhere/missing.txt" None
                    (fresh no_env some_files
                       (always (NetFail "unreachable"))))).
    reflexivity.
  - exact (proj1 (proj2 (proj1 (proj2
             (upload_file_behaviour current test_client "/tmp/notes.txt"
                None
                (fresh no_env some_files
                   (always (NetResp (reply 500 "Internal Server Error"
                                       "boom" not_json))))))
             "hello" eq_refl))).
  - eexists. split.
    + rewrite (proj2 (proj2 (proj2 (proj2 (proj2 (proj2 (proj1 (proj2
                 (upload_file_behaviour current test_client "/tmp/notes.txt"
                    None
                    (fresh no_env some_files
                       (always (NetResp (reply 200 "OK" "{}"
                                           (inr (JObject content_2))))))))
                 "hello" eq_refl))))))
                 (reply 200 "OK" "{}" (inr (JObject content_2)))
                 content_2 _ eq_refl eq_refl eq_refl eq_refl).
      reflexivity.
    + reflexivity.
Defined.

Lemma routed_world (L : libs) (self : t) (c : call) (rq : request)
    (w : world) :
  routed self c = Some rq -> snd (perform L self c w) = logged w rq.
Proof.
  unfold routed. destruct (route c) as [[[m ep] ps]|] eqn:Hr; [|discriminate].
  intros [= <-].
  destruct c; cbn in Hr; try discriminate; injection Hr as <- <- <-;
    cbn [perform]; rewrite outcome_world;
    unfold get_content, list_content, transform_content, submit_to_model,
      get_submission, list_submissions, get_analytics, delete_content;
    cbv zeta;
    (apply bind_world; [apply make_request_world|]); intros data;
    first [ apply decode_world | apply decode_list_world | reflexivity ].
Qed.

(** X6.  A facade call never touches the environment, the file system or
    the server, and it makes at most one network call.  A call routed
    through the transport makes exactly one, whatever its outcome;
    [upload_file] makes one when the file opens and none otherwise. *)
Theorem facade_call_makes_one_exchange (L : libs) (self : t) (c : call)
    (w : world) :
  environ (snd (perform L self c w)) = environ w
  /\ fs (snd (perform L self c w)) = fs w
  /\ server (snd (perform L self c w)) = server w
  /\ (forall rq,
        routed self c = Some rq ->
        sent (snd (perform L self c w)) = (sent w ++ [rq])%list)
  /\ (forall path md,
        c = UploadFile path md ->
        match fs w path with
        | Some (Readable content) =>
            sent (snd (perform L self c w))
            = (sent w ++ [upload_request self path content md])%list
        | _ => sent (snd (perform L self c w)) = sent w
        end).
Proof.
  assert (Hw : snd (perform L self c w) = w
               \/ exists rq, snd (perform L self c w) = logged w rq).
  { destruct (routed self c) as [rq|] eqn:Hr.
    - right. exists rq. now apply routed_world.
    - destruct c; try discriminate Hr. cbn [perform].
      rewrite outcome_world, upload_file_world.
      destruct (fs w file_path) as [[content|e]|]; eauto. }
  repeat split.
  - destruct Hw as [-> | [rq ->]]; reflexivity.
  - destruct Hw as [-> | [rq ->]]; reflexivity.
  - destruct Hw as [-> | [rq ->]]; reflexivity.
  - intros rq Hr. now rewrite (routed_world L self c rq w Hr).
  - intros path md ->. cbn [perform].
    rewrite outcome_world, upload_file_world.
    now destruct (fs w path) as [[content|e]|].
Qed.

(** [get_content] on the test client while the host is down. *)
Lemma facade_call_makes_one_exchange_witness :
  sent (snd (perform current test_client (GetContent "c1")
               (fresh no_env some_files (always (NetFail "down")))))
  = [transport_request test_client "GET" "/content/c1" []].
Proof.
  exact (proj1 (proj2 (proj2 (proj2
           (facade_call_makes_one_exchange current test_client
              (GetContent "c1")
              (fresh no_env some_files (always (NetFail "down")))))))
           _ eq_refl).
Defined.

(** ** What the facade returns *)

Lemma lift_run {A : Type} (r : exn + A) (w : world) : lift r w = (r, w).
Proof. now destruct r. Qed.

(** The decoding tail of the single-entity methods, on a response the
    transport lets through. *)
Lemma entity_call_runs {A : Type} (L : libs) (self : t) (m ep : string)
    (init : list (string * json) -> exn + A) (w : world) (r : response)
    (j : json) :
  answer w (transport_request self m ep []) = NetResp r ->
  ~ 400 <= status_code r < 600 ->
  json_body r = inr j ->
  (data <~ _make_request L self m ep [] ;;
   kw <~ lift (unpack data) ;;
   lift (init kw)) w
  = (match unpack j with
     | inr kw => init kw
     | inl e => inl e
     end, logged w (transport_request self m ep [])).
Proof.
  intros Ha Hs Hj.
  rewrite (bind_ret _ _ _ _ _
             (make_request_returns L self m ep [] w r j Ha
                (http_error_msg_none r Hs) Hj)).
  unfold bind. rewrite lift_run. destruct (unpack j) as [e|kw];
    [reflexivity|]. apply lift_run.
Qed.

(** X7.  When the server answers with a status outside 400-599 and a
    JSON object, each single-entity method returns exactly what the
    model constructor makes of that object: the entity, or pydantic's
    ValidationError. *)
Theorem entity_calls_return_constructed (L : libs) (self : t) (w : world)
    (r : response) (kw : list (string * json)) :
  ~ 400 <= status_code r < 600 ->
  json_body r = inr (JObject kw) ->
  (forall cid,
     answer w (transport_request self "GET" ("/content/" ++ cid) [])
     = NetResp r ->
     fst (get_content L self cid w) = Content.init (pydantic L) kw)
  /\ (forall cid,
        answer w (transport_request self "POST"
                    ("/content/" ++ cid ++ "/transform") []) = NetResp r ->
        fst (transform_content L self cid w)
        = TransformationResult.init (pydantic L) kw)
  /\ (forall cid prov,
        answer w (transport_request self "POST"
                    ("/content/" ++ cid ++ "/submit/" ++ prov) [])
        = NetResp r ->
        fst (submit_to_model L self cid prov w)
        = Submission.init (pydantic L) kw)
  /\ (forall sid,
        answer w (transport_request self "GET" ("/submissions/" ++ sid) [])
        = NetResp r ->
        fst (get_submission L self sid w) = Submission.init (pydantic L) kw)
  /\ (answer w (transport_request self "GET" "/analytics" []) = NetResp r ->
      fst (get_analytics L self w) = AnalyticsData.init (pydantic L) kw).
Proof.
  intros Hs Hj. repeat split; intros;
    unfold get_content, transform_content, submit_to_model, get_submission,
      get_analytics;
    now erewrite entity_call_runs by eassumption.
Qed.

(** [get_analytics] answered as in [test_get_analytics_success]. *)
Lemma entity_calls_return_constructed_witness :
  fst (get_analytics current test_client
         (fresh no_env no_files
            (always (NetResp (reply 200 "OK" "{}"
                                (inr (JObject analytics_payload)))))))
  = AnalyticsData.init strict analytics_payload.
Proof.
  apply (proj2 (proj2 (proj2 (proj2
           (entity_calls_return_constructed current test_client
              (fresh no_env no_files
                 (always (NetResp (reply 200 "OK" "{}"
                                     (inr (JObject analytics_payload))))))
              (reply 200 "OK" "{}" (inr (JObject analytics_payload)))
              analytics_payload ltac:(cbn; lia) eq_refl))))).
  reflexivity.
Defined.

(** X8.  A transformation the server reports as failed is a normal
    result: answered with [{"success": false, "error": msg}],
    [transform_content] returns a TransformationResult whose [success]
    is false and whose [error] is [msg]; it does not raise. *)
Theorem transform_content_returns_failed_result (L : libs) (self : t)
    (cid msg : string) (w : world) (r : response) :
  answer w (transport_request self "POST"
              ("/content/" ++ cid ++ "/transform") []) = NetResp r ->
  ~ 400 <= status_code r < 600 ->
  json_body r
  = inr (JObject [("success", JBool false); ("error", JString msg)]) ->
  fst (transform_content L self cid w)
  = inr {| TransformationResult.success := false;
           TransformationResult.transformed_text := None;
           TransformationResult.chunks := None;
           TransformationResult.company_info := None;
           TransformationResult.faqs := None;
           TransformationResult.error := Some msg |}.
Proof.
  intros Ha Hs Hj. unfold transform_content.
  now rewrite (entity_call_runs L self _ _ _ w r _ Ha Hs Hj).
Qed.

(** A transformation that failed on an empty document. *)
Lemma transform_content_returns_failed_result_witness :
  exists res,
    fst (transform_content current test_client "c1"
           (fresh no_env no_files
              (always (NetResp
                         (reply 200 "OK" "{}"
                            (inr (JObject [("success", JBool false);
                                           ("error",
                                            JString "empty document")])))))))
    = inr res
    /\ TransformationResult.success res = false
    /\ TransformationResult.error res = Some "empty document".
Proof.
  eexists. split.
  - apply (transform_content_returns_failed_result current test_client "c1"
             "empty document"
             (fresh no_env no_files
                (always (NetResp
                           (reply 200 "OK" "{}"
                              (inr (JObject [("success", JBool false);
                                             ("error",
                                              JString "empty document")]))))))
             (reply 200 "OK" "{}"
                (inr (JObject [("success", JBool false);
                               ("error", JString "empty document")])))
             eq_refl ltac:(cbn; lia) eq_refl).
  - split; reflexivity.
Defined.

(** X9.  When the server answers with a status outside 400-599 and a
    JSON document that is not an object (an array, a string, a number,
    [null]), the single-entity methods raise TypeError and the two
    listing methods raise AttributeError; [delete_content], which does
    not look at the document, returns. *)
Theorem non_object_body_raises_builtin_error (L : libs) (self : t)
    (c : call) (rq : request) (w : world) (r : response) (j : json) :
  routed self c = Some rq ->
  answer w rq = NetResp r ->
  ~ 400 <= status_code r < 600 ->
  json_body r = inr j ->
  (forall kw, j <> JObject kw) ->
  perform L self c w
  = (match c with
     | ListContent _ _ | ListSubmissions _ _ _ =>
         Some (AttributeError "object has no attribute 'get'")
     | DeleteContent _ => None
     | _ => Some (TypeError "argument after ** must be a mapping")
     end, logged w rq).
Proof.
  unfold routed. destruct (route c) as [[[m ep] ps]|] eqn:Hr; [|discriminate].
  intros [= <-] Ha Hs Hj Hn.
  pose proof (make_request_returns L self m ep ps w r j Ha
                (http_error_msg_none r Hs) Hj) as Hm.
  assert (Hu : unpack j
               = inl (TypeError "argument after ** must be a mapping"))
    by (destruct j; try reflexivity; now elim (Hn members)).
  assert (Hg : dict_get "items" (JArray []) j
               = inl (AttributeError "object has no attribute 'get'"))
    by (destruct j; try reflexivity; now elim (Hn members)).
  destruct c; cbn in Hr; try discriminate; injection Hr as <- <- <-;
    cbn [perform];
    unfold get_content, list_content, transform_content, submit_to_model,
      get_submission, list_submissions, get_analytics, delete_content;
    cbv zeta; rewrite (bind_ret _ _ _ _ _ Hm); unfold bind;
    rewrite ?Hu, ?Hg; reflexivity.
Qed.

(** [get_content] answered 200 with the JSON array [[]]. *)
Lemma non_object_body_raises_builtin_error_witness :
  fst (perform current test_client (GetContent "c1")
         (fresh no_env no_files
            (always (NetResp (reply 200 "OK" "[]" (inr (JArray [])))))))
  = Some (TypeError "argument after ** must be a mapping").
Proof.
  rewrite (non_object_body_raises_builtin_error current test_client
             (GetContent "c1")
             (transport_request test_client "GET" "/content/c1" [])
             (fresh no_env no_files
                (always (NetResp (reply 200 "OK" "[]" (inr (JArray []))))))
             (reply 200 "OK" "[]" (inr (JArray []))) (JArray [])
             eq_refl eq_refl ltac:(cbn; lia) eq_refl
             ltac:(intros kw; discriminate)).
  reflexivity.
Defined.

(** ** Listings *)

Section Listing.

Context {A : Type}.
Variable init : list (string * json) -> exn + A.

Lemma item_object (kw : list (string * json)) (w : world) :
  decode_item init (JObject kw) w = (init kw, w).
Proof. unfold decode_item, bind. cbn. apply lift_run. Qed.

Lemma mapM_items_decode (js : list json) (xs : list A) (w : world) :
  Forall2 (fun j x => exists kw, j = JObject kw /\ init kw = inr x) js xs ->
  mapM (decode_item init) js w = (inr xs, w).
Proof.
  induction 1 as [|j x js xs (kw & -> & Hx) _ IH]; [reflexivity|].
  cbn [mapM]. unfold bind at 1. rewrite item_object, Hx.
  unfold bind. now rewrite IH.
Qed.

Lemma mapM_items_fail (good rest : list json) (bad : json) (xs : list A)
    (e : exn) (w : world) :
  Forall2 (fun j x => exists kw, j = JObject kw /\ init kw = inr x)
    good xs ->
  match unpack bad with inr kw => init kw | inl e' => inl e' end = inl e ->
  mapM (decode_item init) (good ++ bad :: rest) w = (inl e, w).
Proof.
  intros Hg Hb. induction Hg as [|j x js xs' (kw & -> & Hx) _ IH].
  - cbn [app mapM]. apply bind_raise. unfold decode_item, bind.
    rewrite lift_run. destruct (unpack bad) as [e'|kw].
    + now injection Hb as ->.
    + now rewrite lift_run, Hb.
  - cbn [app mapM]. unfold bind at 1. rewrite item_object, Hx.
    unfold bind. now rewrite IH.
Qed.

(** The listing tail, once the transport has returned an object. *)
Lemma listing_runs (L : libs) (self : t) (ep : string)
    (ps : list (string * json)) (w : world) (r : response)
    (d : list (string * json)) :
  answer w (transport_request self "GET" ep ps) = NetResp r ->
  ~ 400 <= status_code r < 600 ->
  json_body r = inr (JObject d) ->
  bind (_make_request L self "GET" ep ps)
    (fun data =>
       items <~ lift (dict_get "items" (JArray []) data) ;;
       items <~ lift (iterate items) ;;
       mapM (fun j => kw <~ lift (unpack j) ;; lift (init kw)) items) w
  = match iterate (get_default "items" (JArray []) d) with
    | inr js =>
        mapM (decode_item init) js
          (logged w (transport_request self "GET" ep ps))
    | inl e => (inl e, logged w (transport_request self "GET" ep ps))
    end.
Proof.
  intros Ha Hs Hj.
  rewrite (bind_ret _ _ _ _ _
             (make_request_returns L self _ _ _ w r _ Ha
                (http_error_msg_none r Hs) Hj)).
  unfold bind. cbn [dict_get]. rewrite !lift_run.
  now destruct (iterate _).
Qed.

End Listing.

(** X10.  When the [items] of the answer are JSON objects that all
    validate, [list_content] and [list_submissions] return the decoded
    entities, one per item and in the order of the answer. *)
Theorem listings_decode_items_in_order (L : libs) (self : t) (w : world)
    (r : response) (d : list (string * json)) (js : list json) :
  ~ 400 <= status_code r < 600 ->
  json_body r = inr (JObject d) ->
  lookup "items" d = Some (JArray js) ->
  (forall limit offset cs,
     answer w (transport_request self "GET" "/content"
                 [("limit", JInt limit); ("offset", JInt offset)])
     = NetResp r ->
     Forall2 (fun j c => exists kw,
                j = JObject kw /\ Content.init (pydantic L) kw = inr c)
       js cs ->
     fst (list_content L self limit offset w) = inr cs
     /\ List.length cs = List.length js)
  /\ (forall cid limit offset ss,
        answer w (transport_request self "GET" "/submissions"
                    (list_submissions_params cid limit offset))
        = NetResp r ->
        Forall2 (fun j s => exists kw,
                   j = JObject kw /\ Submission.init (pydantic L) kw = inr s)
          js ss ->
        fst (list_submissions L self cid limit offset w) = inr ss
        /\ List.length ss = List.length js).
Proof.
  intros Hs Hj Hi. split.
  - intros limit offset cs Ha Hd. split.
    + unfold list_content. cbv zeta.
      rewrite (listing_runs _ L self _ _ w r d Ha Hs Hj).
      unfold get_default. rewrite Hi. cbn [iterate].
      now rewrite (mapM_items_decode _ js cs _ Hd).
    + symmetry. exact (Forall2_length Hd).
  - intros cid limit offset ss Ha Hd. split.
    + unfold list_submissions. cbv zeta.
      rewrite (listing_runs _ L self _ _ w r d Ha Hs Hj).
      unfold get_default. rewrite Hi. cbn [iterate].
      now rewrite (mapM_items_decode _ js ss _ Hd).
    + symmetry. exact (Forall2_length Hd).
Qed.

(** The answer of [test_list_content_success]. *)
Lemma listings_decode_items_in_order_witness :
  exists c1 c2,
    fst (list_content current test_client 50 0
           (Scenarios.served
              (Scenarios.listing
                 (JArray [JObject content_test; JObject content_2]))))
    = inr [c1; c2].
Proof.
  do 2 eexists.
  refine (proj1 (proj1 (listings_decode_items_in_order current test_client
                          (Scenarios.served
                             (Scenarios.listing
                                (JArray [JObject content_test;
                                         JObject content_2])))
                          (Scenarios.listing
                             (JArray [JObject content_test;
                                      JObject content_2]))
                          _ _ ltac:(cbn; lia) eq_refl eq_refl)
                   50 0 _ eq_refl _)).
  repeat constructor; eexists; split; reflexivity.
Defined.

(** X11.  One item that does not decode fails the whole listing: when
    the items before it validate and it does not (it is no object, or
    the model constructor rejects it), [list_content] and
    [list_submissions] raise its error and return no partial list. *)
Theorem listings_fail_on_first_bad_item (L : libs) (self : t) (w : world)
    (r : response) (d : list (string * json)) (good rest : list json)
    (bad : json) (e : exn) :
  ~ 400 <= status_code r < 600 ->
  json_body r = inr (JObject d) ->
  lookup "items" d = Some (JArray (good ++ bad :: rest)) ->
  (forall limit offset cs,
     answer w (transport_request self "GET" "/content"
                 [("limit", JInt limit); ("offset", JInt offset)])
     = NetResp r ->
     Forall2 (fun j c => exists kw,
                j = JObject kw /\ Content.init (pydantic L) kw = inr c)
       good cs ->
     match unpack bad with
     | inr kw => Content.init (pydantic L) kw
     | inl e' => inl e'
     end = inl e ->
     fst (list_content L self limit offset w) = inl e)
  /\ (forall cid limit offset ss,
        answer w (transport_request self "GET" "/submissions"
                    (list_submissions_params cid limit offset))
        = NetResp r ->
        Forall2 (fun j s => exists kw,
                   j = JObject kw /\ Submission.init (pydantic L) kw = inr s)
          good ss ->
        match unpack bad with
        | inr kw => Submission.init (pydantic L) kw
        | inl e' => inl e'
        end = inl e ->
        fst (list_submissions L self cid limit offset w) = inl e).
Proof.
  intros Hs Hj Hi. split.
  - intros limit offset cs Ha Hd Hb. unfold list_content. cbv zeta.
    rewrite (listing_runs _ L self _ _ w r d Ha Hs Hj).
    unfold get_default. rewrite Hi. cbn [iterate].
    now rewrite (mapM_items_fail _ good rest bad cs e _ Hd Hb).
  - intros cid limit offset ss Ha Hd Hb. unfold list_submissions. cbv zeta.
    rewrite (listing_runs _ L self _ _ w r d Ha Hs Hj).
    unfold get_default. rewrite Hi. cbn [iterate].
    now rewrite (mapM_items_fail _ good rest bad ss e _ Hd Hb).
Qed.

(** A listing whose second item is a string. *)
Lemma listings_fail_on_first_bad_item_witness :
  fst (list_content current test_client 50 0
         (Scenarios.served
            (Scenarios.listing
               (JArray [JObject content_test; JString "oops"]))))
  = inl (TypeError "argument after ** must be a mapping").
Proof.
  refine (proj1 (listings_fail_on_first_bad_item current test_client
                   (Scenarios.served
                      (Scenarios.listing
                         (JArray [JObject content_test; JString "oops"])))
                   (Scenarios.listing
                      (JArray [JObject content_test; JString "oops"]))
                   _ [JObject content_test] [] (JString "oops") _
                   ltac:(cbn; lia) eq_refl eq_refl)
            50 0 _ eq_refl _ eq_refl).
  repeat constructor; eexists; split; reflexivity.
Defined.

(** X12.  An [items] key that is present but holds [null], a number or a
    boolean is not taken for an empty listing: [list_content] and
    [list_submissions] raise TypeError. *)
Theorem listings_raise_on_non_iterable_items (L : libs) (self : t)
    (w : world) (r : response) (d : list (string * json)) (v : json) :
  ~ 400 <= status_code r < 600 ->
  json_body r = inr (JObject d) ->
  lookup "items" d = Some v ->
  match v with
  | JNull | JBool _ | JInt _ | JFloat _ => True
  | _ => False
  end ->
  (forall limit offset,
     answer w (transport_request self "GET" "/content"
                 [("limit", JInt limit); ("offset", JInt offset)])
     = NetResp r ->
     fst (list_content L self limit offset w)
     = inl (TypeError "object is not iterable"))
  /\ (forall cid limit offset,
        answer w (transport_request self "GET" "/submissions"
                    (list_submissions_params cid limit offset))
        = NetResp r ->
        fst (list_submissions L self cid limit offset w)
        = inl (TypeError "object is not iterable")).
Proof.
  intros Hs Hj Hi Hv.
  assert (Hit : iterate v = inl (TypeError "object is not iterable"))
    by (destruct v; try contradiction; reflexivity).
  split.
  - intros limit offset Ha. unfold list_content. cbv zeta.
    rewrite (listing_runs _ L self _ _ w r d Ha Hs Hj).
    unfold get_default. now rewrite Hi, Hit.
  - intros cid limit offset Ha. unfold list_submissions. cbv zeta.
    rewrite (listing_runs _ L self _ _ w r d Ha Hs Hj).
    unfold get_default. now rewrite Hi, Hit.
Qed.

(** A listing whose [items] is [null]. *)
Lemma listings_raise_on_non_iterable_items_witness :
  fst (list_content current test_client 50 0
         (Scenarios.served (Scenarios.listing JNull)))
  = inl (TypeError "object is not iterable").
Proof.
  exact (proj1 (listings_raise_on_non_iterable_items current test_client
                  (Scenarios.served (Scenarios.listing JNull))
                  (Scenarios.listing JNull) _ JNull
                  ltac:(cbn; lia) eq_refl eq_refl I)
           50 0 eq_refl).
Defined.

(** X26.  An [items] that is an object or a string is iterated like any
    Python iterable: an empty one gives the empty listing, and a
    non-empty one raises TypeError, since its keys or characters are
    strings and no mappings. *)
Theorem listings_iterate_object_or_string_items (L : libs) (self : t)
    (w : world) (r : response) (d : list (string * json)) (v : json)
    (limit offset : Z) :
  answer w (transport_request self "GET" "/content"
              [("limit", JInt limit); ("offset", JInt offset)])
  = NetResp r ->
  ~ 400 <= status_code r < 600 ->
  json_body r = inr (JObject d) ->
  lookup "items" d = Some v ->
  (v = JObject [] \/ v = JString EmptyString ->
   fst (list_content L self limit offset w) = inr [])
  /\ (forall k x rest,
        v = JObject ((k, x) :: rest) ->
        fst (list_content L self limit offset w)
        = inl (TypeError "argument after ** must be a mapping"))
  /\ (forall c rest,
        v = JString (String c rest) ->
        fst (list_content L self limit offset w)
        = inl (TypeError "argument after ** must be a mapping")).
Proof.
  intros Ha Hs Hj Hi.
  assert (Hrun : list_content L self limit offset w
                 = match iterate v with
                   | inr js =>
                       mapM (fun j => kw <~ lift (unpack j) ;;
                                      lift (Content.init (pydantic L) kw))
                         js (logged w (transport_request self "GET" "/content"
                                         [("limit", JInt limit);
                                          ("offset", JInt offset)]))
                   | inl e =>
                       (inl e,
                        logged w (transport_request self "GET" "/content"
                                    [("limit", JInt limit);
                                     ("offset", JInt offset)]))
                   end).
  { unfold list_content. cbv zeta.
    rewrite (listing_runs _ L self _ _ w r d Ha Hs Hj).
    unfold get_default. now rewrite Hi. }
  rewrite Hrun. repeat split.
  - intros [-> | ->]; reflexivity.
  - intros k x rest ->. reflexivity.
  - intros c rest ->. reflexivity.
Qed.

(** A listing whose [items] is the object [{"total": 0}]. *)
Lemma listings_iterate_object_or_string_items_witness :
  fst (list_content current test_client 50 0
         (Scenarios.served
            (Scenarios.listing (JObject [("total", JInt 0)]))))
  = inl (TypeError "argument after ** must be a mapping").
Proof.
  exact (proj1 (proj2
           (listings_iterate_object_or_string_items current test_client
              (Scenarios.served
                 (Scenarios.listing (JObject [("total", JInt 0)])))
              (Scenarios.listing (JObject [("total", JInt 0)]))
              _ (JObject [("total", JInt 0)]) 50 0
              eq_refl ltac:(cbn; lia) eq_refl eq_refl))
           "total" (JInt 0) [] eq_refl).
Defined.

(** ** The requests that go out *)

Lemma lstrip_slash_spec (s : string) :
  exists pre,
    s = pre ++ Py.lstrip_slash s
    /\ (forall c, In c (list_ascii_of_string pre) -> c = "/"%char)
    /\ (forall rest, Py.lstrip_slash s <> String "/" rest).
Proof.
  induction s as [|c s (pre & Hs & Hp & Hr)].
  - exists EmptyString. repeat split; [intros c [] | discriminate].
  - cbn [Py.lstrip_slash]. destruct (Ascii.eqb_spec c "/") as [->|Hc].
    + exists (String "/" pre). repeat split.
      * cbn. now rewrite <- Hs.
      * intros c [<- | Hin]; [reflexivity | now apply Hp].
      * exact Hr.
    + exists EmptyString. repeat split; [intros c0 [] |].
      intros rest [= -> _]. now apply Hc.
Qed.

(** X13.  The transport joins the base URL and the endpoint with exactly
    one slash of its own: the leading slashes of the endpoint, however
    many, are dropped, so that endpoints differing only in them give the
    same request.  (The base URL is taken as it is.) *)
Theorem transport_drops_leading_slashes (self : t) (m ep : string)
    (ps : list (string * json)) :
  transport_request self m (String "/" ep) ps
  = transport_request self m ep ps
  /\ exists pre rest,
       ep = pre ++ rest
       /\ (forall c, In c (list_ascii_of_string pre) -> c = "/"%char)
       /\ (forall rest', rest <> String "/" rest')
       /\ target (transport_request self m ep ps)
          = api_url self ++ "/" ++ rest.
Proof.
  split; [reflexivity|].
  destruct (lstrip_slash_spec ep) as (pre & Hs & Hp & Hr).
  exists pre, (Py.lstrip_slash ep). repeat split; assumption.
Qed.

Lemma basename_no_slash (p : string) : Py.has_slash (Py.basename p) = false.
Proof.
  induction p as [|c p IH]; [reflexivity|].
  cbn [Py.basename]. destruct (Py.has_slash (String c p)) eqn:E; assumption.
Qed.

Lemma basename_is_suffix (p : string) :
  exists dir,
    p = dir ++ Py.basename p
    /\ (dir = EmptyString \/ exists d, dir = d ++ "/").
Proof.
  induction p as [|c p (dir & Hp & Hd)].
  - exists EmptyString. split; [reflexivity | now left].
  - cbn [Py.basename]. destruct (Py.has_slash (String c p)) eqn:E.
    + exists (String c dir). split; [cbn; now rewrite <- Hp|]. right.
      destruct Hd as [-> | [d ->]].
      * cbn in Hp. cbn [Py.has_slash] in E. rewrite Hp in E.
        rewrite basename_no_slash, orb_false_r in E.
        apply Ascii.eqb_eq in E. subst c. now exists EmptyString.
      * now exists (String c d).
    + exists EmptyString. split; [reflexivity | now left].
Qed.

(** X14.  [upload_file] sends one part, named [file], whose filename is
    the last component of the path: it holds no slash, and the path is a
    directory prefix (empty, or ending in a slash) followed by it.  The
    part carries the bytes read from the file. *)
Theorem upload_sends_last_path_component (self : t) (path content : string)
    (md : option (list (string * json))) :
  exists name dir,
    files (upload_request self path content md)
    = [("file", (name, content))]
    /\ Py.has_slash name = false
    /\ path = dir ++ name
    /\ (dir = EmptyString \/ exists d, dir = d ++ "/").
Proof.
  destruct (basename_is_suffix path) as (dir & Hp & Hd).
  exists (Py.basename path), dir. repeat split; try assumption.
  apply basename_no_slash.
Qed.

(** ** The constructed client *)

Lemma init_inversion (url tok : option string) (w w' : world) (c : t) :
  __init__ url tok w = (inr c, w') ->
  exists token,
    Py.or_else tok (environ w "HAIBLOCK_AUTH_TOKEN") = Some token
    /\ token <> EmptyString
    /\ w' = w
    /\ c = {| api_url :=
                Py.or_default url
                  match environ w "HAIBLOCK_API_URL" with
                  | Some v => v
                  | None => "https://api.haiblock.com"
                  end;
              auth_token := token;
              session_headers :=
                [ ("Authorization", "Bearer " ++ token);
                  ("Content-Type", "application/json");
                  ("User-Agent", "haiblock-python-sdk/0.1.0") ] |}.
Proof.
  unfold __init__, bind, getenv_default, getenv.
  destruct (Py.or_else tok (environ w "HAIBLOCK_AUTH_TOKEN"))
    as [token|] eqn:E; [|discriminate].
  unfold Py.truthy. destruct (String.eqb_spec token EmptyString) as [->|N];
    cbn [negb]; [discriminate|].
  intros [= <- <-]. exists token. repeat split. exact N.
Qed.

Lemma init_succeeds (url tok : option string) (w : world) (token : string) :
  Py.or_else tok (environ w "HAIBLOCK_AUTH_TOKEN") = Some token ->
  token <> EmptyString ->
  exists c, __init__ url tok w = (inr c, w) /\ auth_token c = token.
Proof.
  intros E N. unfold __init__, bind, getenv_default, getenv. rewrite E.
  unfold Py.truthy. apply String.eqb_neq in N. rewrite N. cbn [negb].
  eexists. split; reflexivity.
Qed.

(** X15.  A client built by the constructor sends its bearer token on
    every call.  Calls through the transport also declare a JSON content
    type; the upload keeps the token and the user agent and declares no
    content type of its own. *)
Theorem constructed_client_sends_bearer_token (url tok : option string)
    (w w' : world) (c : t) :
  __init__ url tok w = (inr c, w') ->
  (forall m ep ps,
     headers (transport_request c m ep ps)
     = [ ("Authorization", "Bearer " ++ auth_token c);
         ("Content-Type", "application/json");
         ("User-Agent", "haiblock-python-sdk/0.1.0") ])
  /\ (forall path content md,
        headers (upload_request c path content md)
        = [ ("Authorization", "Bearer " ++ auth_token c);
            ("User-Agent", "haiblock-python-sdk/0.1.0") ]).
Proof.
  intros H. destruct (init_inversion url tok w w' c H) as (token & _ & _ & _ & ->).
  split; reflexivity.
Qed.

(** The client of the tests, built from its two arguments. *)
Lemma constructed_client_sends_bearer_token_witness :
  headers (upload_request test_client "/tmp/notes.txt" "hello" None)
  = [ ("Authorization", "Bearer test-token");
      ("User-Agent", "haiblock-python-sdk/0.1.0") ].
Proof.
  exact (proj2 (constructed_client_sends_bearer_token
                  (Some "https://api.test.haiblock.com") (Some "test-token")
                  (fresh no_env no_files (always (NetFail "down")))
                  _ test_client eq_refl)
           "/tmp/notes.txt" "hello" None).
Defined.

(** X16.  A non-empty [auth_token] argument always constructs a client
    and wins over [HAIBLOCK_AUTH_TOKEN]; when the argument is absent or
    empty, a non-empty [HAIBLOCK_AUTH_TOKEN] is used instead. *)
Theorem init_token_argument_wins_over_environment (url tok : option string)
    (w : world) :
  (forall token,
     tok = Some token -> token <> EmptyString ->
     exists c, __init__ url tok w = (inr c, w) /\ auth_token c = token)
  /\ (forall token,
        Py.truthy tok = false ->
        environ w "HAIBLOCK_AUTH_TOKEN" = Some token ->
        token <> EmptyString ->
        exists c, __init__ url tok w = (inr c, w) /\ auth_token c = token).
Proof.
  split.
  - intros token -> N. apply init_succeeds; [|exact N].
    unfold Py.or_else, Py.truthy. apply String.eqb_neq in N. now rewrite N.
  - intros token Ht He N. apply init_succeeds; [|exact N].
    now rewrite (or_else_falsy _ _ Ht).
Qed.

(** An argument given while the environment holds another token. *)
Lemma init_token_argument_wins_over_environment_witness :
  exists c,
    __init__ None (Some "from-argument")
      (fresh (fun _ => Some "from-environment") no_files
         (always (NetFail "down")))
    = (inr c, fresh (fun _ => Some "from-environment") no_files
                (always (NetFail "down")))
    /\ auth_token c = "from-argument".
Proof.
  apply (proj1 (init_token_argument_wins_over_environment None
                  (Some "from-argument")
                  (fresh (fun _ => Some "from-environment") no_files
                     (always (NetFail "down"))))
           "from-argument" eq_refl).
  discriminate.
Defined.

(** X17.  The base URL of a constructed client is the [api_url] argument
    when that is non-empty; otherwise the value of [HAIBLOCK_API_URL]
    when the variable is set, even to the empty string; otherwise
    [https://api.haiblock.com]. *)
Theorem init_api_url_resolution (url tok : option string) (w w' : world)
    (c : t) :
  __init__ url tok w = (inr c, w') ->
  (forall u, url = Some u -> u <> EmptyString -> api_url c = u)
  /\ (forall u,
        Py.truthy url = false ->
        environ w "HAIBLOCK_API_URL" = Some u -> api_url c = u)
  /\ (Py.truthy url = false ->
      environ w "HAIBLOCK_API_URL" = None ->
      api_url c = "https://api.haiblock.com").
Proof.
  intros H. destruct (init_inversion url tok w w' c H) as (token & _ & _ & _ & ->).
  cbn [api_url]. unfold Py.or_default. repeat split.
  - intros u -> N. unfold Py.truthy. apply String.eqb_neq in N.
    now rewrite N.
  - intros u Ht He. rewrite He. destruct url as [v|]; [|reflexivity].
    now rewrite Ht.
  - intros Ht He. rewrite He. destruct url as [v|]; [|reflexivity].
    now rewrite Ht.
Qed.

(** No [api_url] argument and [HAIBLOCK_API_URL] set to the empty
    string. *)
Lemma init_api_url_resolution_witness :
  exists c,
    fst (__init__ None (Some "tok")
           (Scenarios.offline
              (Scenarios.env_with "HAIBLOCK_API_URL" EmptyString)))
    = inr c
    /\ api_url c = EmptyString.
Proof.
  eexists. split; [reflexivity|].
  exact (proj1 (proj2 (init_api_url_resolution None (Some "tok")
                         (Scenarios.offline
                            (Scenarios.env_with "HAIBLOCK_API_URL"
                               EmptyString))
                         _ _ eq_refl))
           EmptyString eq_refl eq_refl).
Defined.

(** ** The model layer *)

Lemma User_decode_encode (P : coercions) (u : User.t) :
  User.init P (User.dict u) = inr u.
Proof.
  destruct u. unfold User.init, User.validate, User.dict.
  cbn [User.id User.email User.api_keys User.created_at User.last_login].
  dumped_fields. reflexivity.
Qed.

Lemma User_encode_decode (P : coercions) (kw : list (string * json)) :
  matches_schema User.schema kw = true ->
  exists u,
    User.init P kw = inr u
    /\ forall k v,
         In k (map fst User.schema) ->
         lookup k kw = Some v -> lookup k (User.dict u) = Some v.
Proof.
  intros H. unfold User.schema in H. split_schema H. matched_fields P.
  eexists. split.
  - unfold User.init, User.validate. decoded_fields. reflexivity.
  - intros k v Hin Hl. cbn in Hin.
    repeat (destruct Hin as [<- | Hin]; [same_field Hl|]).
    contradiction.
Qed.

(** X18.  The User model round-trips like the others: decoding the
    encoding of a User gives it back, and a payload that matches the
    schema decodes to a User whose encoding holds, for each field
    present in the payload, the value the payload holds. *)
Theorem user_model_round_trips (P : coercions) : round_trips P User_model.
Proof.
  split; cbn.
  - apply User_decode_encode.
  - apply User_encode_decode.
Qed.

(** A User with one API key. *)
Lemma user_model_round_trips_witness :
  exists u,
    User.init strict Scenarios.user_payload = inr u
    /\ forall k v,
         In k (map fst User.schema) ->
         lookup k Scenarios.user_payload = Some v ->
         lookup k (User.dict u) = Some v.
Proof.
  exact (proj2 (user_model_round_trips strict) Scenarios.user_payload
           eq_refl).
Defined.

Ltac unfold_models :=
  cbn [decode encode fields Content_model Submission_model
       TransformationResult_model AnalyticsData_model User_model];
  unfold Content.init, Submission.init, TransformationResult.init,
    AnalyticsData.init, User.init, Content.validate, Submission.validate,
    TransformationResult.validate, AnalyticsData.validate, User.validate,
    Content.schema, Submission.schema, TransformationResult.schema,
    AnalyticsData.schema, User.schema.

Ltac each_model Hin :=
  cbn in Hin;
  destruct Hin as [<- | [<- | [<- | [<- | [<- | []]]]]].

Ltac is_field :=
  cbn [map fst In]; repeat (first [left; reflexivity | right]).

(** X19.  Decoding looks at nothing but the fields of the model: two
    payloads that hold the same value under every field name decode to
    the same result, whatever other keys they hold and in whatever
    order. *)
Theorem decoding_ignores_unknown_keys (P : coercions) (m : model)
    (kw kw' : list (string * json)) :
  In m all_models ->
  (forall name, In name (map fst (fields m)) ->
                lookup name kw = lookup name kw') ->
  decode m P kw = decode m P kw'.
Proof.
  intros Hin. each_model Hin; unfold_models; intros H;
    unfold required, optional;
    repeat match goal with
           | |- context [lookup ?n kw] =>
               rewrite (H n ltac:(is_field))
           end;
    reflexivity.
Qed.

(** The analytics payload with a key the model does not know. *)
Lemma decoding_ignores_unknown_keys_witness :
  AnalyticsData.init strict (("generated_at", JInt 0) :: analytics_payload)
  = AnalyticsData.init strict analytics_payload.
Proof.
  apply (decoding_ignores_unknown_keys strict AnalyticsData_model
           (("generated_at", JInt 0) :: analytics_payload)
           analytics_payload).
  - cbn. tauto.
  - intros name Hin. cbn in Hin.
    repeat (destruct Hin as [<- | Hin]; [reflexivity|]). contradiction.
Defined.

Ltac missing_field Hm :=
  match goal with
  | E : required _ ?n ?kw = Some _, H : lookup ?n ?kw = _ \/ _ |- _ =>
      unfold required in E; destruct H as [H | H]; rewrite H in E;
      cbn in E; discriminate E
  end.

(** X20.  Every field annotated without a default is required, in every
    model: a payload that lacks it, or holds [null] for it, raises
    pydantic's ValidationError, and no other error, whatever its other
    fields hold. *)
Theorem missing_required_field_fails (P : coercions) (m : model)
    (name : string) (T : annotation) (kw : list (string * json)) :
  In m all_models ->
  In (name, T) (fields m) ->
  is_optional T = false ->
  lookup name kw = None \/ lookup name kw = Some JNull ->
  exists model_name,
    decode m P kw = inl (PydanticValidationError model_name).
Proof.
  intros Hin. each_model Hin; unfold_models; intros Hf Ho Hm;
    cbn [In] in Hf;
    repeat (destruct Hf as [Hf | Hf];
            [ injection Hf as <- <-; try discriminate Ho;
              match goal with
              | |- exists n, construct _ ?v = inl _ =>
                  let E := fresh "V" in
                  destruct v eqn:E;
                  [ exfalso; revert E; validate_inv; intros _;
                    missing_field Hm
                  | eexists; reflexivity ]
              end
            | ]);
    contradiction.
Qed.

(** The analytics payload of the tests without its [success_rate]. *)
Lemma missing_required_field_fails_witness :
  exists model_name,
    AnalyticsData.init strict (removelast analytics_payload)
    = inl (PydanticValidationError model_name).
Proof.
  apply (missing_required_field_fails strict AnalyticsData_model
           "success_rate" TFloat (removelast analytics_payload)).
  - cbn. tauto.
  - cbn. tauto.
  - reflexivity.
  - left. reflexivity.
Defined.

Ltac absent_field Hm :=
  match goal with
  | E : optional _ ?n ?kw = Some _, H : lookup ?n ?kw = _ \/ _ |- _ =>
      unfold optional in E; destruct H as [H | H]; rewrite H in E;
      injection E as <-; reflexivity
  end.

(** X21.  An Optional field that the payload lacks, or holds [null]
    for, is [None] in the decoded entity, in every model. *)
Theorem absent_optional_field_is_none (P : coercions) (m : model)
    (name : string) (T : annotation) (kw : list (string * json))
    (x : entity m) :
  In m all_models ->
  In (name, TOptional T) (fields m) ->
  lookup name kw = None \/ lookup name kw = Some JNull ->
  decode m P kw = inr x ->
  lookup name (encode m x) = Some JNull.
Proof.
  intros Hin. revert x. each_model Hin; unfold_models; intros x Hf Hm Hd;
    apply construct_inr in Hd; revert Hd; validate_inv; intros [= <-];
    cbn [In] in Hf;
    repeat (destruct Hf as [Hf | Hf];
            [ first [ discriminate Hf
                    | injection Hf as <- <-; absent_field Hm ]
            | ]);
    contradiction.
Qed.

(** The Content payload of the tests, which has no [transformed_text]. *)
Lemma absent_optional_field_is_none_witness :
  exists c,
    Content.init strict content_test = inr c
    /\ lookup "transformed_text" (Content.dict c) = Some JNull.
Proof.
  eexists. split; [reflexivity|].
  apply (absent_optional_field_is_none strict Content_model
           "transformed_text" TStr content_test).
  - cbn. tauto.
  - cbn. tauto.
  - left. reflexivity.
  - reflexivity.
Defined.

(** * The Cognito helper of examples/auth_example.py *)

Section Cognito.

Import HaiBlockAuth.

(** X22.  The constructor of the helper first resolves the user pool id
    and the client id, each from the argument or else from the
    environment.  When either is missing or empty it raises ValueError,
    whatever [boto3.client] would do.  When both are non-empty it calls
    [boto3.client] for [cognito-idp] in the given region: if that
    raises, its error is the constructor's; if it returns, the helper
    is constructed and holds the two ids, the region and that client. *)
Theorem auth_helper_requires_both_ids (env : string -> option string)
    (boto3_client : string -> string
                    -> failure + (cognito_call -> boto_result))
    (pool cid : option string) (reg : string) :
  (forall a,
     HaiBlockAuth.__init__ env boto3_client pool cid reg = inr a ->
     Py.or_else pool (env "HAIBLOCK_USER_POOL_ID") = Some (user_pool_id a)
     /\ Py.or_else cid (env "HAIBLOCK_CLIENT_ID") = Some (client_id a)
     /\ user_pool_id a <> EmptyString
     /\ client_id a <> EmptyString
     /\ region a = reg
     /\ boto3_client "cognito-idp" reg = inr (cognito_client a))
  /\ (Py.truthy (Py.or_else pool (env "HAIBLOCK_USER_POOL_ID")) = false
      \/ Py.truthy (Py.or_else cid (env "HAIBLOCK_CLIENT_ID")) = false ->
      HaiBlockAuth.__init__ env boto3_client pool cid reg
      = inl (ValueError "User Pool ID and Client ID are required"))
  /\ (Py.truthy (Py.or_else pool (env "HAIBLOCK_USER_POOL_ID")) = true ->
      Py.truthy (Py.or_else cid (env "HAIBLOCK_CLIENT_ID")) = true ->
      (forall e,
         boto3_client "cognito-idp" reg = inl e ->
         HaiBlockAuth.__init__ env boto3_client pool cid reg = inl e)
      /\ (forall client,
            boto3_client "cognito-idp" reg = inr client ->
            exists a,
              HaiBlockAuth.__init__ env boto3_client pool cid reg = inr a
              /\ cognito_client a = client)).
Proof.
  unfold HaiBlockAuth.__init__.
  destruct (Py.or_else pool (env "HAIBLOCK_USER_POOL_ID")) as [p|];
    destruct (Py.or_else cid (env "HAIBLOCK_CLIENT_ID")) as [c|];
    cbn [Py.truthy];
    try destruct (String.eqb_spec p EmptyString) as [->|Np];
    try destruct (String.eqb_spec c EmptyString) as [->|Nc];
    cbn [negb orb];
    (split;
     [ intros a Ha;
       first [ discriminate Ha
             | destruct (boto3_client "cognito-idp" reg) as [e|client];
               [ discriminate Ha
               | injection Ha as <-; cbn; repeat split; assumption ] ]
     | split;
       [ intros [H | H]; first [ discriminate H | reflexivity ]
       | intros H1 H2;
         first [ discriminate H1 | discriminate H2
               | split;
                 [ intros e ->; reflexivity
                 | intros client ->; eexists; split; reflexivity ] ] ] ]).
Qed.

(** A client id with no user pool id, in an empty environment; and both
    ids given while [boto3.client] refuses the region. *)
Lemma auth_helper_requires_both_ids_witness :
  HaiBlockAuth.__init__ no_env
    (fun _ _ => inr (Scenarios.cognito (OtherError "unreachable")))
    None (Some "demo-client") "us-east-1"
  = inl (ValueError "User Pool ID and Client ID are required")
  /\ HaiBlockAuth.__init__ no_env
       (fun _ _ => inl (Uncaught "Provided region_name 'nowhere!' doesn't match a supported format."))
       (Some "us-east-1_demo") (Some "demo-client") "nowhere!"
     = inl (Uncaught "Provided region_name 'nowhere!' doesn't match a supported format.").
Proof.
  split.
  - apply (proj1 (proj2 (auth_helper_requires_both_ids no_env
                           (fun _ _ =>
                              inr (Scenarios.cognito
                                     (OtherError "unreachable")))
                           None (Some "demo-client") "us-east-1"))).
    left. reflexivity.
  - apply (proj1 (proj2 (proj2 (auth_helper_requires_both_ids no_env
                                  (fun _ _ => inl (Uncaught "Provided region_name 'nowhere!' doesn't match a supported format."))
                                  (Some "us-east-1_demo")
                                  (Some "demo-client") "nowhere!"))
                    eq_refl eq_refl)).
    reflexivity.
Defined.

(** X23.  [authenticate] lets no ClientError of Cognito through: each one
    becomes an AuthenticationError, with a fixed message for the codes
    [NotAuthorizedException] and [UserNotConfirmedException] and the
    text of the error after ["Authentication failed: "] for any other
    code. *)
Theorem authenticate_translates_client_errors (self : HaiBlockAuth.t)
    (email password code text : string) :
  cognito_client self
    (initiate_auth (client_id self) "USER_PASSWORD_AUTH"
       [("USERNAME", email); ("PASSWORD", password)])
  = ClientError code text ->
  (exists msg,
     authenticate self email password
     = inl (Sdk (AuthenticationError msg)))
  /\ (code = "NotAuthorizedException" ->
      authenticate self email password
      = inl (Sdk (AuthenticationError "Invalid email or password")))
  /\ (code = "UserNotConfirmedException" ->
      authenticate self email password
      = inl (Sdk (AuthenticationError "Email not verified. Please check your email and confirm your account.")))
  /\ (code <> "NotAuthorizedException" ->
      code <> "UserNotConfirmedException" ->
      authenticate self email password
      = inl (Sdk (AuthenticationError ("Authentication failed: " ++ text)))).
Proof.
  intros H. unfold authenticate. rewrite H. repeat split.
  - destruct (String.eqb code "NotAuthorizedException"); [eauto|].
    destruct (String.eqb code "UserNotConfirmedException"); eauto.
  - intros ->. reflexivity.
  - intros ->. reflexivity.
  - intros N1 N2. apply String.eqb_neq in N1, N2. now rewrite N1, N2.
Qed.

(** A login that Cognito throttles. *)
Lemma authenticate_translates_client_errors_witness :
  authenticate
    (Scenarios.auth_helper
       (Scenarios.cognito
          (ClientError "TooManyRequestsException" "Rate exceeded")))
    "demo@example.com" "demo-password"
  = inl (Sdk (AuthenticationError "Authentication failed: Rate exceeded")).
Proof.
  apply (proj2 (proj2 (proj2
           (authenticate_translates_client_errors
              (Scenarios.auth_helper
                 (Scenarios.cognito
                    (ClientError "TooManyRequestsException"
                       "Rate exceeded")))
              "demo@example.com" "demo-password"
              "TooManyRequestsException" "Rate exceeded" eq_refl))));
    discriminate.
Defined.

(** X24.  When Cognito returns a response, [authenticate] returns the
    [AccessToken] of its [AuthenticationResult]; a response without an
    [AuthenticationResult] (a challenge) or without an [AccessToken]
    raises KeyError, which is not translated. *)
Theorem authenticate_returns_access_token (self : HaiBlockAuth.t)
    (email password : string) (response : list (string * json)) :
  cognito_client self
    (initiate_auth (client_id self) "USER_PASSWORD_AUTH"
       [("USERNAME", email); ("PASSWORD", password)])
  = Returned response ->
  (forall result token,
     lookup "AuthenticationResult" response = Some (JObject result) ->
     lookup "AccessToken" result = Some token ->
     authenticate self email password = inr token)
  /\ (lookup "AuthenticationResult" response = None ->
      authenticate self email password
      = inl (KeyError "AuthenticationResult"))
  /\ (forall result,
        lookup "AuthenticationResult" response = Some (JObject result) ->
        lookup "AccessToken" result = None ->
        authenticate self email password = inl (KeyError "AccessToken")).
Proof.
  intros H. unfold authenticate, getitem, subscript. rewrite H.
  repeat split.
  - intros result token -> Ht. unfold getitem. now rewrite Ht.
  - intros ->. reflexivity.
  - intros result -> Ht. unfold getitem. now rewrite Ht.
Qed.

(** A login answered with a NEW_PASSWORD_REQUIRED challenge. *)
Lemma authenticate_returns_access_token_witness :
  authenticate
    (Scenarios.auth_helper
       (Scenarios.cognito
          (Returned [("ChallengeName", JString "NEW_PASSWORD_REQUIRED")])))
    "demo@example.com" "demo-password"
  = inl (KeyError "AuthenticationResult").
Proof.
  apply (proj1 (proj2
           (authenticate_returns_access_token
              (Scenarios.auth_helper
                 (Scenarios.cognito
                    (Returned [("ChallengeName",
                                JString "NEW_PASSWORD_REQUIRED")])))
              "demo@example.com" "demo-password"
              [("ChallengeName", JString "NEW_PASSWORD_REQUIRED")]
              eq_refl))).
  reflexivity.
Defined.

(** X25.  [signup] and [confirm_signup] never return [False]: they
    return [True] whenever Cognito returns, and turn every ClientError
    into an AuthenticationError. *)
Theorem signup_returns_true_or_raises (self : HaiBlockAuth.t)
    (email password name code : string) :
  (forall b, signup self email password name = inr b -> b = true)
  /\ (forall b, confirm_signup self email code = inr b -> b = true)
  /\ (forall response,
        cognito_client self
          (sign_up (client_id self) email password
             [("email", email); ("name", name)]) = Returned response ->
        signup self email password name = inr true)
  /\ (forall response,
        cognito_client self (confirm_sign_up (client_id self) email code)
        = Returned response ->
        confirm_signup self email code = inr true)
  /\ (forall error text,
        cognito_client self
          (sign_up (client_id self) email password
             [("email", email); ("name", name)]) = ClientError error text ->
        exists msg,
          signup self email password name
          = inl (Sdk (AuthenticationError msg)))
  /\ (forall error text,
        cognito_client self (confirm_sign_up (client_id self) email code)
        = ClientError error text ->
        exists msg,
          confirm_signup self email code
          = inl (Sdk (AuthenticationError msg))).
Proof.
  unfold signup, confirm_signup. repeat split.
  - intros b. destruct (cognito_client self _) as [resp|error text|text].
    + now intros [= <-].
    + destruct (String.eqb error "UsernameExistsException");
        [discriminate|].
      destruct (String.eqb error "InvalidPasswordException"); discriminate.
    + discriminate.
  - intros b. destruct (cognito_client self _) as [resp|error text|text].
    + now intros [= <-].
    + destruct (String.eqb error "CodeMismatchException"); [discriminate|].
      destruct (String.eqb error "ExpiredCodeException"); discriminate.
    + discriminate.
  - intros response ->. reflexivity.
  - intros response ->. reflexivity.
  - intros error text ->.
    destruct (String.eqb error "UsernameExistsException"); [eauto|].
    destruct (String.eqb error "InvalidPasswordException"); eauto.
  - intros error text ->.
    destruct (String.eqb error "CodeMismatchException"); [eauto|].
    destruct (String.eqb error "ExpiredCodeException"); eauto.
Qed.

(** A signup for an address that is already registered. *)
Lemma signup_returns_true_or_raises_witness :
  exists msg,
    signup
      (Scenarios.auth_helper
         (Scenarios.cognito
            (ClientError "UsernameExistsException" "User already exists")))
      "test@example.com" "TempPassword123!" "Test User"
    = inl (Sdk (AuthenticationError msg)).
Proof.
  exact (proj1 (proj2 (proj2 (proj2 (proj2
           (signup_returns_true_or_raises
              (Scenarios.auth_helper
                 (Scenarios.cognito
                    (ClientError "UsernameExistsException"
                       "User already exists")))
              "test@example.com" "TempPassword123!" "Test User" "000000")))))
           "UsernameExistsException" "User already exists" eq_refl).
Defined.

End Cognito.
